(** * Bioreactor dashboard: batch pipeline of [src/app.py]

    A shallow embedding of the file indexer, the batch merger, the series
    loader and the axis allocation of the plot assembler, with the
    properties the specification states about them.

    Conventions of the embedding.
    - A Python [str] is a [string]; a character is the code point held by
      one [ascii] (code points 0 to 255).  The character classes
      [isalnum] and [isspace] are the ones of [str.isalnum] and
      [str.isspace] on that range.
    - A float is an IEEE 754 binary64 number: a [spec_float] with the
      operations of the Standard Library at precision 53, which round to
      the nearest float, ties to even.  A missing value (NaN, NaT) is
      [CNaN] in a table and [None] in a typed row.
    - Where [pandas] and [numpy] do arithmetic of their own (the quantile,
      the mean of a bucket, the seconds of a time difference), the
      operations and their order are those of [pandas] 1.5 and 2 with
      [numpy] 1.22 or later.
    - A blob holds the table that [pandas.read_csv] makes of its text, so
      that [DataFrame.to_csv] followed by [read_csv] is the identity of the
      model.
    - A callback runs in a state and error monad: the state is the two
      process-wide globals, the raw-export bucket and the merged-output
      bucket; an uncaught exception is the result [Raise]. *)

From Stdlib Require Import ZArith QArith Qround String Ascii List Bool Lia.
From Stdlib Require Import Sorted Permutation SpecFloat.
From stdpp Require Import base option list gmap strings.
Import ListNotations.

Local Open Scope string_scope.
Local Open Scope Z_scope.

(** ** Python strings *)

Module PyStr.

Definition chars (s : string) : list ascii := list_ascii_of_string s.
Definition str (l : list ascii) : string := string_of_list_ascii l.

Definition code (c : ascii) : Z := Z.of_N (N_of_ascii c).

Definition between (lo hi : Z) (c : ascii) : bool :=
  (lo <=? code c) && (code c <=? hi).

(** [str.isalnum] of one character: letters, decimal digits and the
    numeric characters of the first 256 code points. *)
Definition isalnum (c : ascii) : bool :=
  between 48 57 c || between 65 90 c || between 97 122 c
  || (code c =? 170) || between 178 179 c || (code c =? 181)
  || between 185 186 c || between 188 190 c
  || between 192 214 c || between 216 246 c || between 248 255 c.

(** [str.isspace] of one character; it is also the set that [rstrip()]
    removes. *)
Definition isspace (c : ascii) : bool :=
  between 9 13 c || between 28 32 c || (code c =? 133) || (code c =? 160).

(** [l.rstrip()] *)
Fixpoint rstrip (l : list ascii) : list ascii :=
  match l with
  | [] => []
  | c :: r =>
      match rstrip r with
      | [] => if isspace c then [] else [c]
      | r' => c :: r'
      end
  end.

(** [s.split(sep)]: always at least one part. *)
Fixpoint split (sep : ascii) (l : list ascii) : list (list ascii) :=
  match l with
  | [] => [[]]
  | c :: r =>
      if Ascii.eqb c sep then [] :: split sep r
      else match split sep r with
           | [] => [[c]]
           | p :: ps => (c :: p) :: ps
           end
  end.

(** [s.split(sep, 1)]: one part when [sep] does not occur, else the text
    before the first [sep] and the whole text after it. *)
Fixpoint split1 (sep : ascii) (l : list ascii) : list (list ascii) :=
  match l with
  | [] => [[]]
  | c :: r =>
      if Ascii.eqb c sep then [[]; r]
      else match split1 sep r with
           | [p; q] => [c :: p; q]
           | _ => [c :: r]
           end
  end.

End PyStr.

(** ** File names *)

(** [c.isalnum() or c in (' ', '_', '-')] *)
Definition allowed (c : ascii) : bool :=
  PyStr.isalnum c || Ascii.eqb c " " || Ascii.eqb c "_" || Ascii.eqb c "-".

Definition sanitize_char (c : ascii) : ascii :=
  if allowed c then c else "_"%char.

(** [sanitize_filename], lines 56-60. *)
Definition sanitize_filename (filename : string) : string :=
  PyStr.str (PyStr.rstrip (map sanitize_char (PyStr.chars filename))).


(** ** Exceptions *)

Inductive exn : Type :=
  | ValueError (msg : string)
  | KeyError (key : string)
  | TypeError (msg : string)
  | IndexError (msg : string)
  | OverflowError (msg : string)
  | NotFound (blob_name : string).

Inductive result (A : Type) : Type :=
  | Ok (a : A)
  | Raise (e : exn).
Arguments Ok {A} a.
Arguments Raise {A} e.

Definition rbind {A B} (r : result A) (k : A -> result B) : result B :=
  match r with
  | Ok a => k a
  | Raise e => Raise e
  end.

(** ** Dates: [datetime.strptime] and the calendar *)

Module Strptime.

(** A regular expression of [_strptime.TimeRE], as a backtracking matcher:
    the values it can read at the head of the input with what is left, in
    the order in which the regex engine tries its alternatives. *)
Definition matcher : Type := list ascii -> list (Z * list ascii).

Definition digit (c : ascii) : option Z :=
  if PyStr.between 48 57 c then Some (PyStr.code c - 48) else None.

(** One character of the class [lo-hi] (decimal digits), read as its value. *)
Definition cls (lo hi : Z) : matcher := fun l =>
  match l with
  | c :: r =>
      match digit c with
      | Some v => if (lo <=? v) && (v <=? hi) then [(v, r)] else []
      | None => []
      end
  | [] => []
  end.

(** The literal character [c], read as 0. *)
Definition lit (c : ascii) : matcher := fun l =>
  match l with
  | c' :: r => if Ascii.eqb c' c then [(0, r)] else []
  | [] => []
  end.

(** Two digits in a row: the number they spell. *)
Definition seq2 (a b : matcher) : matcher := fun l =>
  flat_map (fun '(x, r) => map (fun '(y, r') => (10 * x + y, r')) (b r)) (a l).

Definition alt (a b : matcher) : matcher := fun l => (a l ++ b l)%list.

(** [%Y]: [\d\d\d\d] *)
Definition re_Y : matcher :=
  seq2 (seq2 (seq2 (cls 0 9) (cls 0 9)) (cls 0 9)) (cls 0 9).
(** [%m]: [1[0-2]|0[1-9]|[1-9]] *)
Definition re_m : matcher :=
  alt (seq2 (cls 1 1) (cls 0 2)) (alt (seq2 (cls 0 0) (cls 1 9)) (cls 1 9)).
(** [%d]: [3[0-1]|[1-2]\d|0[1-9]|[1-9]| [1-9]] *)
Definition re_d : matcher :=
  alt (seq2 (cls 3 3) (cls 0 1))
   (alt (seq2 (cls 1 2) (cls 0 9))
    (alt (seq2 (cls 0 0) (cls 1 9))
     (alt (cls 1 9) (seq2 (lit " ") (cls 1 9))))).
(** [%H]: [2[0-3]|[0-1]\d|\d] *)
Definition re_H : matcher :=
  alt (seq2 (cls 2 2) (cls 0 3)) (alt (seq2 (cls 0 1) (cls 0 9)) (cls 0 9)).
(** [%M]: [[0-5]\d|\d] *)
Definition re_M : matcher := alt (seq2 (cls 0 5) (cls 0 9)) (cls 0 9).
(** [%S]: [6[0-1]|[0-5]\d|\d] *)
Definition re_S : matcher :=
  alt (seq2 (cls 6 6) (cls 0 1)) (alt (seq2 (cls 0 5) (cls 0 9)) (cls 0 9)).

(** A format is a sequence of fields; the match of the whole format is the
    first one in backtracking order. *)
Fixpoint fields (ms : list matcher) (l : list ascii)
  : list (list Z * list ascii) :=
  match ms with
  | [] => [([], l)]
  | m :: ms' =>
      flat_map (fun '(v, r) => map (fun '(vs, r') => (v :: vs, r')) (fields ms' r))
               (m l)
  end.

Definition is_leap (y : Z) : bool :=
  ((y mod 4 =? 0) && negb (y mod 100 =? 0)) || (y mod 400 =? 0).

Definition days_in_month (y m : Z) : Z :=
  if m =? 2 then (if is_leap y then 29 else 28)
  else if (m =? 4) || (m =? 6) || (m =? 9) || (m =? 11) then 30
  else 31.

(** Days from 1970-01-01 to the civil date [y-m-d] (proleptic Gregorian). *)
Definition days_from_civil (y m d : Z) : Z :=
  let y' := if m <=? 2 then y - 1 else y in
  let era := y' / 400 in
  let yoe := y' - era * 400 in
  let mp := (m + 9) mod 12 in
  let doy := (153 * mp + 2) / 5 + d - 1 in
  let doe := yoe * 365 + yoe / 4 - yoe / 100 + doy in
  era * 146097 + doe - 719468.

End Strptime.

(** A naive [datetime.datetime]. *)
Record datetime : Type := mk_datetime {
  year : Z; month : Z; day : Z;
  hour : Z; minute : Z; second : Z; microsecond : Z
}.

Definition dt_key (d : datetime) : list Z :=
  [year d; month d; day d; hour d; minute d; second d; microsecond d].

Fixpoint lex_leb (a b : list Z) : bool :=
  match a, b with
  | [], _ => true
  | _ :: _, [] => false
  | x :: a', y :: b' => (x <? y) || ((x =? y) && lex_leb a' b')
  end.

(** [a <= b] on datetimes: field by field. *)
Definition dt_leb (a b : datetime) : bool := lex_leb (dt_key a) (dt_key b).

(** [datetime.strptime(s, "%Y%m%d")]: the regex of the format must match at
    the head of [s], the first match must reach the end of [s], and the
    fields must be a date of the calendar (years start at 1). *)
Definition strptime_Ymd (s : list ascii) : result datetime :=
  match Strptime.fields [Strptime.re_Y; Strptime.re_m; Strptime.re_d] s with
  | ([y; m; d], rest) :: _ =>
      match rest with
      | _ :: _ => Raise (ValueError "unconverted data remains")
      | [] =>
          if y <? 1 then Raise (ValueError "year is out of range")
          else if Strptime.days_in_month y m <? d
               then Raise (ValueError "day is out of range for month")
          else Ok (mk_datetime y m d 0 0 0 0)
      end
  | _ => Raise (ValueError "time data does not match format")
  end.

(** ** File indexer *)

(** [filter_files_by_date], lines 39-53.  The [except] clause prints and
    goes on with the next file. *)
Fixpoint filter_files_by_date (files : list string) (start_date end_date : datetime)
  : list string :=
  match files with
  | [] => []
  | file :: files' =>
      let filtered_files := filter_files_by_date files' start_date end_date in
      match PyStr.split "_" (PyStr.chars file) with
      | _ :: _ :: file_date_str :: _ =>
          match strptime_Ymd file_date_str with
          | Ok file_date =>
              if dt_leb start_date file_date && dt_leb file_date end_date
              then file :: filtered_files
              else filtered_files
          | Raise _ => filtered_files
          end
      | _ => filtered_files
      end
  end.

(** [datetime.fromisoformat] on the two forms the date picker emits,
    [YYYY-MM-DD] and [YYYY-MM-DD?HH:MM:SS] (any one character between date
    and time); every other text raises [ValueError] in this model. *)
Definition fromisoformat (s : string) : result datetime :=
  let two := Strptime.seq2 (Strptime.cls 0 9) (Strptime.cls 0 9) in
  let date := [Strptime.re_Y; Strptime.lit "-"; two; Strptime.lit "-"; two] in
  let time := [two; Strptime.lit ":"; two; Strptime.lit ":"; two] in
  let bad := Raise (ValueError "Invalid isoformat string") in
  match Strptime.fields date (PyStr.chars s) with
  | ([y; _; m; _; d], rest) :: _ =>
      if (y <? 1) || (m <? 1) || (12 <? m) || (d <? 1)
         || (Strptime.days_in_month y m <? d) then bad
      else match rest with
           | [] => Ok (mk_datetime y m d 0 0 0 0)
           | _ :: rest' =>
               match Strptime.fields time rest' with
               | ([h; _; mi; _; sec], []) :: _ =>
                   if (23 <? h) || (59 <? mi) || (59 <? sec) then bad
                   else Ok (mk_datetime y m d h mi sec 0)
               | _ => bad
               end
           end
  | _ => bad
  end.

(** ** Floats

    The binary64 numbers of Python and of [numpy]: sign, mantissa and
    exponent, with the two zeros, the two infinities and NaN. *)
Module F64.

Definition float : Type := spec_float.

Definition prec : Z := 53.
Definition emax : Z := 1024.

Definition add : float -> float -> float := SFadd prec emax.
Definition sub : float -> float -> float := SFsub prec emax.
Definition mul : float -> float -> float := SFmul prec emax.
Definition div : float -> float -> float := SFdiv prec emax.

(** [x <= y]; false when one of them is NaN. *)
Definition leb : float -> float -> bool := SFleb.

Definition nan : float := S754_nan.
Definition zero : float := S754_zero false.

Definition is_nan (x : float) : bool :=
  match x with S754_nan => true | _ => false end.

(** The float nearest to [n / d], with the sign asked for. *)
Definition of_ratio (negative : bool) (n d : positive) : float :=
  SFdiv prec emax (S754_finite negative n 0) (S754_finite false d 0).

(** The float nearest to an integer and to a rational. *)
Definition of_Z (z : Z) : float := binary_normalize prec emax z 0 false.

Definition of_Q (q : Q) : float :=
  match Qnum q with
  | Z0 => zero
  | Zpos n => of_ratio false n (Qden q)
  | Zneg n => of_ratio true n (Qden q)
  end.

(** A float as a value that may be missing: NaN is the missing one. *)
Definition to_option (x : float) : option float :=
  if is_nan x then None else Some x.

End F64.

(** ** Tables *)

(** One value of a [pandas] table.  [CNaN] stands for every missing value
    (NaN and NaT); [CTime t] is a timestamp, [t] seconds after
    1970-01-01 00:00:00. *)
Inductive cell : Type :=
  | CNum (x : F64.float)
  | CStr (s : string)
  | CTime (t : Z)
  | CNaN.

Record DataFrame : Type := mk_df {
  columns : list string;
  rows : list (list cell)
}.

(** [pd.DataFrame()] *)
Definition empty_frame : DataFrame := mk_df [] [].

(** [df.empty]: an axis of length 0. *)
Definition df_empty (df : DataFrame) : bool :=
  match rows df, columns df with
  | [], _ => true
  | _, [] => true
  | _, _ => false
  end.

Fixpoint index_of (name : string) (cols : list string) : option nat :=
  match cols with
  | [] => None
  | c :: cols' =>
      if String.eqb c name then Some O
      else option_map S (index_of name cols')
  end.

Definition has_column (name : string) (df : DataFrame) : bool :=
  match index_of name (columns df) with Some _ => true | None => false end.

(** The value of a row in column [i]; a short row is missing there. *)
Definition get_cell (i : nat) (row : list cell) : cell := nth i row CNaN.

(** [df[name]] *)
Definition getitem (df : DataFrame) (name : string) : result (list cell) :=
  match index_of name (columns df) with
  | Some i => Ok (map (get_cell i) (rows df))
  | None => Raise (KeyError name)
  end.

(** [df[mask]] for a mask computed row by row. *)
Definition select (keep : list cell -> bool) (df : DataFrame) : DataFrame :=
  mk_df (columns df) (List.filter keep (rows df)).

Definition reindex (old new : list string) (row : list cell) : list cell :=
  map (fun c => match index_of c old with
                | Some i => get_cell i row
                | None => CNaN
                end) new.

(** [pd.concat([a, b], ignore_index=True)]: the columns of [a], then the new
    ones of [b]; the rows of [a], then those of [b]. *)
Definition concat (a b : DataFrame) : DataFrame :=
  let cols :=
    (columns a ++
     List.filter (fun c => negb (existsb (String.eqb c) (columns a))) (columns b))%list in
  mk_df cols
    (map (reindex (columns a) cols) (rows a) ++
     map (reindex (columns b) cols) (rows b))%list.

(** [cell == s] for a string [s] *)
Definition cell_is (s : string) (c : cell) : bool :=
  match c with
  | CStr t => String.eqb t s
  | _ => false
  end.

(** ** Python dictionaries: keys in insertion order *)

Definition dict (V : Type) : Type := list (string * V).

Fixpoint dict_get {V} (k : string) (d : dict V) : option V :=
  match d with
  | [] => None
  | (k', v) :: d' => if String.eqb k' k then Some v else dict_get k d'
  end.

(** [d[k] = v] *)
Fixpoint dict_set {V} (k : string) (v : V) (d : dict V) : dict V :=
  match d with
  | [] => [(k, v)]
  | (k', v') :: d' =>
      if String.eqb k' k then (k, v) :: d' else (k', v') :: dict_set k v d'
  end.

(** [{k: v for k in keys}] *)
Definition dict_from_keys {V} (keys : list string) (v : V) : dict V :=
  fold_left (fun d k => dict_set k v d) keys [].

(** ** Sorting strings: [sorted(...)], by code point *)

Fixpoint insert_str (x : string) (l : list string) : list string :=
  match l with
  | [] => [x]
  | y :: l' => if String.leb x y then x :: l else y :: insert_str x l'
  end.

Definition sorted_strings (l : list string) : list string :=
  fold_right insert_str [] l.

Definition mem_str (x : string) (l : list string) : bool :=
  existsb (String.eqb x) l.

(** [sorted(set(l))] *)
Fixpoint dedup (l : list string) : list string :=
  match l with
  | [] => []
  | x :: l' => if mem_str x l' then dedup l' else x :: dedup l'
  end.

Definition sorted_set (l : list string) : list string :=
  sorted_strings (dedup l).

Definition endswith (suffix s : string) : bool :=
  let n := String.length s in
  let k := String.length suffix in
  (k <=? n)%nat && String.eqb (String.substring (n - k) k s) suffix.

(** ** Configuration tables, lines 197-311 *)

Definition deg : string := String (ascii_of_nat 176) EmptyString.

Definition variable_names : list string :=
  [ "AI Values_78TT001 - Analog input";
    "AI Values_78TT002 - Analog input";
    "AI Values_10TT002 - Analog input";
    "AI Values_20TTC001 - Analog input";
    "AI Values_20FTC003 - analog input";
    "AI Values_78FT001 - Analog input";
    "AI Values_20FTC002 - Analog input";
    "AI Values_20XTC001 - Analog input";
    "AI Values_20XTC002 - Analog input";
    "AI Values_20XT004 - Analog input";
    "AI Values_20XTC003 - Analog input";
    "AI Values_10PT001 - Analog input";
    "30P001.HMI.DATA_2";
    "30P002.HMI.DATA_2";
    "30P001.HMI.STATUS";
    "AO Values_10R001";
    "AO Values_10R002";
    "AO Values_10R003";
    "AI Values_20PT004 - Analog input";
    "AI Values_78PT002 - Analog input";
    "AI Values_78PT001 - Analog input" ].

Definition variable_units : dict string :=
  [ ("AI Values_78TT001 - Analog input", "Temperature (" ++ deg ++ "C)");
    ("AI Values_78TT002 - Analog input", "Temperature (" ++ deg ++ "C)");
    ("AI Values_10TT002 - Analog input", "Temperature (" ++ deg ++ "C)");
    ("AI Values_20TTC001 - Analog input", "Temperature (" ++ deg ++ "C)");
    ("AI Values_20FTC003 - analog input", "Flowrate normal L/min");
    ("AI Values_78FT001 - Analog input", "Flowrate m3/h");
    ("AI Values_20FTC002 - Analog input", "Flowrate m3/h");
    ("AI Values_20XTC001 - Analog input", "pH");
    ("AI Values_20XTC002 - Analog input", "pH");
    ("AI Values_20XT004 - Analog input", "Dissolved oxygen (%)");
    ("AI Values_20XTC003 - Analog input", "Dissolved oxygen (%)");
    ("AI Values_10PT001 - Analog input", "Pressure (bar?)");
    ("30P001.HMI.DATA_2", "Pump state (ON/OFF)");
    ("30P002.HMI.DATA_2", "Pump state (ON/OFF)");
    ("30P001.HMI.STATUS", "Pump state (?)");
    ("AO Values_10R001", "Light intensity (%)");
    ("AO Values_10R002", "Light intensity (%)");
    ("AO Values_10R003", "Light intensity (%)");
    ("AI Values_20PT004 - Analog input", "Pressure (bar)");
    ("AI Values_78PT002 - Analog input", "Pressure (bar)");
    ("AI Values_78PT001 - Analog input", "Pressure (bar)") ].

Definition variable_display_names : dict string :=
  [ ("AI Values_78TT001 - Analog input", "Cooling circuit, before PBR (" ++ deg ++ "C)");
    ("AI Values_78TT002 - Analog input", "Before the PBR (" ++ deg ++ "C)");
    ("AI Values_10TT002 - Analog input", "Cooling circuit, after PBR (" ++ deg ++ "C)");
    ("AI Values_20TTC001 - Analog input", "After the PBR (" ++ deg ++ "C)");
    ("AI Values_20FTC003 - analog input", "CO2 inlet (normal L/min)");
    ("AI Values_78FT001 - Analog input", "Cooling fluid  (Flowrate m3/h)");
    ("AI Values_20FTC002 - Analog input", "From degasser to PBR (Flowrate m3/h)");
    ("AI Values_20XTC001 - Analog input", "After the PBR1 (pH)");
    ("AI Values_20XTC002 - Analog input", "After the PBR2 (pH)");
    ("AI Values_20XT004 - Analog input", "Before the PBR (Dissolved oxygen %)");
    ("AI Values_20XTC003 - Analog input", "After the PBR (Dissolved oxygen %)");
    ("AI Values_10PT001 - Analog input", "Inside the PBR? Pressure (bar?)");
    ("30P001.HMI.DATA_2", "Nutrient drum (ON/OFF)");
    ("30P002.HMI.DATA_2", "IBC (ON/OFF)");
    ("30P001.HMI.STATUS", "Nutrient drum (Pump state ?)");
    ("AO Values_10R001", "Top layer (Light intensity %)");
    ("AO Values_10R002", "Middle layer (Light intensity %)");
    ("AO Values_10R003", "Bottom layer (Light intensity %)");
    ("AI Values_20PT004 - Analog input", "After the PBR Pressure (bar)");
    ("AI Values_78PT002 - Analog input", "Cooling circuit, after PBR Pressure (bar)");
    ("AI Values_78PT001 - Analog input", "Cooling circuit, before PBR Pressure (bar)") ].

(** Variables to skip for outlier removal. *)
Definition skip_variables : list string :=
  [ "30P001.HMI.DATA_2";
    "30P002.HMI.DATA_2";
    "30P001.HMI.STATUS";
    "AO Values_10R001";
    "AO Values_10R002";
    "AO Values_10R003" ].

(** ** Storage and process state *)

(** The raw-export bucket and the merged-output bucket, the two globals
    [merged_dataframes] and [filename_prefixes], and the names given to
    [upload_from_string] on the output bucket, oldest first. *)
Record state : Type := mk_state {
  primary_bucket : gmap string DataFrame;
  output_bucket : gmap string DataFrame;
  merged_dataframes : dict DataFrame;
  filename_prefixes : list string;
  uploads : list string
}.

(** A callback: it changes the state and returns or raises. *)
Definition M (A : Type) : Type := state -> state * result A.

Definition ret {A} (a : A) : M A := fun st => (st, Ok a).
Definition raise {A} (e : exn) : M A := fun st => (st, Raise e).
Definition bind {A B} (m : M A) (k : A -> M B) : M B := fun st =>
  match m st with
  | (st', Ok a) => k a st'
  | (st', Raise e) => (st', Raise e)
  end.
Definition lift {A} (r : result A) : M A := fun st => (st, r).
Definition get {A} (f : state -> A) : M A := fun st => (st, Ok (f st)).
Definition modify (f : state -> state) : M unit := fun st => (f st, Ok tt).

Declare Scope py_scope.
Delimit Scope py_scope with py.
Notation "x <- m ;; k" := (bind m (fun x => k))
  (at level 100, m at next level, right associativity) : py_scope.
Notation "m ;;; k" := (bind m (fun _ => k))
  (at level 100, right associativity) : py_scope.

(** [for x in l: body x] *)
Fixpoint for_each {A} (l : list A) (body : A -> M unit) : M unit :=
  match l with
  | [] => ret tt
  | x :: l' => (body x ;;; for_each l' body)%py
  end.

(** The object names of a bucket as the listing returns them: in
    increasing order. *)
Definition blob_names (bucket : gmap string DataFrame) : list string :=
  sorted_strings (map fst (map_to_list bucket)).

(** [list_csv_files], lines 34-36 (the listing prefix is never given). *)
Definition list_csv_files (bucket : gmap string DataFrame) : list string :=
  List.filter (endswith ".csv") (blob_names bucket).

(** [extract_prefixes_from_saved_files], lines 73-80. *)
Definition extract_prefixes_from_saved_files (bucket : gmap string DataFrame)
  : list string :=
  let first_part file :=
    match PyStr.split "_" (PyStr.chars file) with
    | p :: _ => PyStr.str p
    | [] => EmptyString
    end in
  sorted_set
    (map first_part (List.filter (endswith ".csv") (list_csv_files bucket))).

(** ** Batch merger *)

(** The loop of [process_csv_file]: [dataframes] grows by the variables
    that have a row in [df]. *)
Fixpoint extract_variables (df : DataFrame) (variable_names : list string)
    (dataframes : dict DataFrame) : result (dict DataFrame) :=
  match variable_names with
  | [] => Ok dataframes
  | var_name :: variable_names' =>
      match index_of "VarName" (columns df) with
      | None => Raise (KeyError "VarName")
      | Some i =>
          let filtered_df := select (fun row => cell_is var_name (get_cell i row)) df in
          extract_variables df variable_names'
            (if df_empty filtered_df then dataframes
             else dict_set var_name filtered_df dataframes)
      end
  end.

(** [process_csv_file], lines 320-330. *)
Definition process_csv_file (bucket : gmap string DataFrame) (file_name : string)
    (variable_names : list string) : result (dict DataFrame) :=
  match bucket !! file_name with
  | None => Raise (NotFound file_name)
  | Some df => extract_variables df variable_names []
  end.

(** What the callback shows as the file list. *)
Inductive file_display : Type :=
  | InvalidDateFormat (e : exn)
  | NoFilesSelected
  | SelectedFiles (files : list string).

(** What the callback shows as the save status: nothing, or the prefix and
    the number of saved files. *)
Inductive save_status : Type :=
  | NoStatus
  | Saved (prefix : string) (count : nat).

Definition set_merged (d : dict DataFrame) (st : state) : state :=
  mk_state (primary_bucket st) (output_bucket st) d
           (filename_prefixes st) (uploads st).

(** [output_bucket.blob(name).upload_from_string(...)] *)
Definition upload (name : string) (df : DataFrame) (st : state) : state :=
  mk_state (primary_bucket st) (<[name := df]> (output_bucket st))
           (merged_dataframes st) (filename_prefixes st)
           (uploads st ++ [name])%list.

Definition add_prefix (p : string) (st : state) : state :=
  mk_state (primary_bucket st) (output_bucket st) (merged_dataframes st)
           (filename_prefixes st ++ [p])%list (uploads st).

Definition output_file (filename_prefix var_name : string) : string :=
  filename_prefix ++ "_" ++ sanitize_filename var_name ++ ".csv".

(** Lines 837-839: one extracted table joins its accumulator. *)
Definition merge_one (entry : string * DataFrame) : M unit :=
  let '(var_name, df) := entry in
  if df_empty df then ret tt
  else (merged <- get merged_dataframes ;;
        match dict_get var_name merged with
        | None => raise (KeyError var_name)
        | Some acc =>
            modify (set_merged (dict_set var_name (concat acc df) merged))
        end)%py.

(** Lines 834-839. *)
Definition merge_file (variable_names : list string) (file : string) : M unit :=
  (bucket <- get primary_bucket ;;
   dataframes <- lift (process_csv_file bucket file variable_names) ;;
   for_each dataframes merge_one)%py.

(** Lines 841-852: the accumulators that have rows are saved, and their
    file names added to [saved_files]. *)
Fixpoint save_all (filename_prefix : string) (entries : list (string * DataFrame))
    (saved_files : list string) : M (list string) :=
  match entries with
  | [] => ret saved_files
  | (var_name, df) :: entries' =>
      if df_empty df then save_all filename_prefix entries' saved_files
      else
        let output_file := output_file filename_prefix var_name in
        (modify (upload output_file df) ;;;
         save_all filename_prefix entries' (saved_files ++ [output_file]))%py
  end.

Definition truthy_str (s : option string) : bool :=
  match s with
  | Some (String _ _) => true
  | _ => false
  end.

Definition truthy_int (n : option Z) : bool :=
  match n with
  | Some n => negb (n =? 0)
  | None => false
  end.

(** [update_file_list], lines 815-871.  An option of the returned list
    has the prefix as its label and as its value. *)
Definition update_file_list (n_clicks : option Z)
    (start_date end_date filename_prefix : option string)
  : M (file_display * save_status * list string) :=
  match start_date, end_date, filename_prefix with
  | Some start_date, Some end_date, Some filename_prefix =>
    if truthy_int n_clicks && truthy_str (Some start_date)
       && truthy_str (Some end_date) && truthy_str (Some filename_prefix)
    then
      match rbind (fromisoformat start_date) (fun s =>
            rbind (fromisoformat end_date) (fun e => Ok (s, e))) with
      | Raise e => ret (InvalidDateFormat e, NoStatus, [])
      | Ok (start_date_dt, end_date_dt) =>
        (primary <- get primary_bucket ;;
         let csv_files := list_csv_files primary in
         let selected_files :=
           filter_files_by_date csv_files start_date_dt end_date_dt in
         match selected_files with
         | [] => ret (NoFilesSelected, NoStatus, [])
         | _ :: _ =>
           modify (set_merged (dict_from_keys variable_names empty_frame)) ;;;
           for_each selected_files (merge_file variable_names) ;;;
           merged <- get merged_dataframes ;;
           saved_files <- save_all filename_prefix merged [] ;;
           known <- get filename_prefixes ;;
           (if mem_str filename_prefix known then ret tt
            else modify (add_prefix filename_prefix)) ;;;
           known <- get filename_prefixes ;;
           out <- get output_bucket ;;
           let all_prefixes :=
             sorted_set (known ++ extract_prefixes_from_saved_files out) in
           ret (SelectedFiles selected_files,
                Saved filename_prefix (length saved_files),
                all_prefixes)
         end)%py
      end
    else
      (out <- get output_bucket ;;
       ret (NoFilesSelected, NoStatus, extract_prefixes_from_saved_files out))%py
  | _, _, _ =>
      (out <- get output_bucket ;;
       ret (NoFilesSelected, NoStatus, extract_prefixes_from_saved_files out))%py
  end.

(** [update_variable_dropdown], lines 878-892: label and value of every
    option. *)
Definition labeled_var_name (prefix var_name : string) : string :=
  prefix ++ "_" ++ var_name.

Definition dict_get_default {V} (k : string) (d : dict V) (default : V) : V :=
  match dict_get k d with
  | Some v => v
  | None => default
  end.

Definition update_variable_dropdown (selected_prefixes : option (list string))
  : list (string * string) :=
  match selected_prefixes with
  | Some ((_ :: _) as selected_prefixes) =>
      flat_map (fun prefix =>
        map (fun var_name =>
               let display_name :=
                 dict_get_default var_name variable_display_names var_name in
               (prefix ++ ": " ++ display_name, labeled_var_name prefix var_name))
            variable_names)
        selected_prefixes
  | _ => []
  end.

(** ** Series loader *)

(** [\s+] of a format: a run of white space, the longest first. *)
Fixpoint re_spaces (l : list ascii) : list (Z * list ascii) :=
  match l with
  | c :: r => if PyStr.isspace c then (re_spaces r ++ [(0, r)])%list else []
  | [] => []
  end.

(** The largest and the smallest second a [pandas] timestamp can hold
    (64-bit nanoseconds). *)
Definition timestamp_in_bounds (t : Z) : bool :=
  (- (2 ^ 63 - 1) <=? t * 1000000000) && (t * 1000000000 <=? 2 ^ 63 - 1).

(** [pd.to_datetime(_, format='%d-%m-%Y %H:%M:%S', errors='coerce')] of one
    value: the text must match the format up to its end and name a day of
    the calendar and a second that a timestamp can hold; everything else
    is missing.  The seconds 60 and 61, which the regular expression reads,
    are added as they are, and so reach into the next minute. *)
Definition to_datetime (c : cell) : cell :=
  match c with
  | CStr s =>
      match Strptime.fields
              [Strptime.re_d; Strptime.lit "-"; Strptime.re_m; Strptime.lit "-";
               Strptime.re_Y; re_spaces; Strptime.re_H; Strptime.lit ":";
               Strptime.re_M; Strptime.lit ":"; Strptime.re_S] (PyStr.chars s) with
      | ([d; _; m; _; y; _; h; _; mi; _; sec], []) :: _ =>
          let t := Strptime.days_from_civil y m d * 86400
                   + h * 3600 + mi * 60 + sec in
          if (y <? 1) || (Strptime.days_in_month y m <? d)
             || negb (timestamp_in_bounds t)
          then CNaN else CTime t
      | _ => CNaN
      end
  | CTime t => CTime t
  | _ => CNaN
  end.

Definition isnull (c : cell) : bool :=
  match c with CNaN => true | _ => false end.

Definition is_str (c : cell) : bool :=
  match c with CStr _ => true | _ => false end.

Definition time_of (c : cell) : option Z :=
  match c with CTime t => Some t | _ => None end.

Definition num_of (c : cell) : option F64.float :=
  match c with CNum x => F64.to_option x | _ => None end.

(** A float as a value of a table. *)
Definition num (x : F64.float) : cell :=
  if F64.is_nan x then CNaN else CNum x.

(** [df[name] = values]: the column is replaced, or added at the end. *)
Definition set_column (df : DataFrame) (name : string) (values : list cell)
  : DataFrame :=
  let cols := if has_column name df then columns df
              else (columns df ++ [name])%list in
  mk_df cols
    (zip_with (fun row v =>
       map (fun c => if String.eqb c name then v
                     else match index_of c (columns df) with
                          | Some i => get_cell i row
                          | None => CNaN
                          end) cols)
       (rows df) values).

(** The smallest of the timestamps of a column, missing values apart. *)
Definition min_time (col : list cell) : option Z :=
  fold_right (fun c acc =>
    match time_of c, acc with
    | Some t, Some m => Some (Z.min t m)
    | Some t, None => Some t
    | None, _ => acc
    end) None col.

(** [col - col.min()] in nanoseconds: the difference of two timestamps
    must fit 64 bits. *)
Fixpoint sub_min (t0 : Z) (col : list cell) : result (list (option Z)) :=
  match col with
  | [] => Ok []
  | c :: col' =>
      rbind (match time_of c with
             | Some t =>
                 let ns := (t - t0) * 1000000000 in
                 if ns <=? 2 ^ 63 - 1 then Ok (Some ns)
                 else Raise (OverflowError "Overflow in int64 addition")
             | None => Ok None
             end)
        (fun d => rbind (sub_min t0 col') (fun ds => Ok (d :: ds)))
  end.

(** [(col - col.min()).dt.total_seconds() / 60]: the nanoseconds as a
    float, divided by 10^9 and then by 60. *)
Definition elapsed_minutes (col : list cell) : result (list cell) :=
  match min_time col with
  | None => Ok (map (fun _ => CNaN) col)
  | Some t0 =>
      rbind (sub_min t0 col) (fun ds =>
        Ok (map (fun d =>
                   match d with
                   | Some ns =>
                       num (F64.div (F64.div (F64.of_Z ns) (F64.of_Z 1000000000))
                                    (F64.of_Z 60))
                   | None => CNaN
                   end) ds))
  end.

Module PyFloat.

(** The white space that [float] strips. *)
Definition space (c : ascii) : bool :=
  PyStr.between 9 13 c || (PyStr.code c =? 32)
  || (PyStr.code c =? 133) || (PyStr.code c =? 160).

Fixpoint lstrip (l : list ascii) : list ascii :=
  match l with
  | c :: r => if space c then lstrip r else l
  | [] => []
  end.

Fixpoint rstrip (l : list ascii) : list ascii :=
  match l with
  | [] => []
  | c :: r =>
      match rstrip r with
      | [] => if space c then [] else [c]
      | r' => c :: r'
      end
  end.

(** Digits with single underscores between them: their value, their
    number, and the rest of the text. *)
Fixpoint digitpart (l : list ascii) (acc cnt : Z) : Z * Z * list ascii :=
  match l with
  | c :: r =>
      match Strptime.digit c with
      | Some v =>
          match r with
          | u :: ((c2 :: _) as r2) =>
              if Ascii.eqb u "_" && PyStr.between 48 57 c2
              then digitpart r2 (10 * acc + v) (cnt + 1)
              else digitpart r (10 * acc + v) (cnt + 1)
          | _ => digitpart r (10 * acc + v) (cnt + 1)
          end
      | None => (acc, cnt, l)
      end
  | [] => (acc, cnt, l)
  end.

Definition sign (l : list ascii) : Z * list ascii :=
  match l with
  | c :: r => if Ascii.eqb c "-" then (-1, r)
              else if Ascii.eqb c "+" then (1, r) else (1, l)
  | [] => (1, l)
  end.

(** An ASCII letter in lower case. *)
Definition lower (c : ascii) : ascii :=
  if PyStr.between 65 90 c then ascii_of_nat (Z.to_nat (PyStr.code c + 32)) else c.

(** [inf], [infinity] and [nan], in any case. *)
Definition special (negative : bool) (l : list ascii) : option F64.float :=
  let w := PyStr.str (map lower l) in
  if String.eqb w "inf" || String.eqb w "infinity"
  then Some (S754_infinity negative)
  else if String.eqb w "nan" then Some F64.nan
  else None.

(** The float nearest to [m * 10 ^ e], for a natural number [m]. *)
Definition decimal (negative : bool) (m e : Z) : F64.float :=
  match m with
  | Zpos p =>
      if 0 <=? e then F64.of_ratio negative (p * Z.to_pos (10 ^ e)) 1
      else F64.of_ratio negative p (Z.to_pos (10 ^ (- e)))
  | _ => S754_zero negative
  end.

(** [float(s)]: white space around, a sign, then [inf], [infinity], [nan]
    or a decimal literal (digits, fraction, exponent), read as the nearest
    float. *)
Definition parse (s : string) : result F64.float :=
  let bad := Raise (ValueError "could not convert string to float") in
  let l := rstrip (lstrip (PyStr.chars s)) in
  let '(sg, l) := sign l in
  let negative := sg <? 0 in
  match special negative l with
  | Some x => Ok x
  | None =>
      let '(ip, n1, l) := digitpart l 0 0 in
      let '(fp, n2, l) :=
        match l with
        | c :: r => if Ascii.eqb c "." then digitpart r 0 0 else (0, 0, l)
        | [] => (0, 0, l)
        end in
      if n1 + n2 =? 0 then bad
      else
        let mant := ip * 10 ^ n2 + fp in
        match l with
        | [] => Ok (decimal negative mant (- n2))
        | c :: r =>
            if Ascii.eqb c "e" || Ascii.eqb c "E" then
              let '(esg, r) := sign r in
              match digitpart r 0 0 with
              | (ev, en, []) =>
                  if en =? 0 then bad
                  else Ok (decimal negative mant (esg * ev - n2))
              | _ => bad
              end
            else bad
        end
  end.

End PyFloat.

(** [s.replace(old, new)] for one-character [old] and [new]. *)
Definition replace_char (old new : ascii) (s : string) : string :=
  PyStr.str (map (fun c => if Ascii.eqb c old then new else c) (PyStr.chars s)).

(** [col.str.replace(',', '.').astype(float)] on a column of text: a value
    that is not text is missing after [.str], and stays missing. *)
Fixpoint to_float_column (col : list cell) : result (list cell) :=
  match col with
  | [] => Ok []
  | c :: col' =>
      rbind (match c with
             | CStr s => rbind (PyFloat.parse (replace_char "," "." s))
                               (fun x => Ok (num x))
             | _ => Ok CNaN
             end)
        (fun v => rbind (to_float_column col') (fun vs => Ok (v :: vs)))
  end.

(** ** Outlier filter *)

Fixpoint insert_f (x : F64.float) (l : list F64.float) : list F64.float :=
  match l with
  | [] => [x]
  | y :: l' => if F64.leb x y then x :: l else y :: insert_f x l'
  end.

Definition sort_f (l : list F64.float) : list F64.float := fold_right insert_f [] l.

(** [numpy]'s [_lerp]: the point between [a] and [b] in proportion [t],
    reckoned from [b] in the upper half. *)
Definition lerp (a b t : F64.float) : F64.float :=
  let diff_b_a := F64.sub b a in
  if F64.leb (F64.of_Q (1 # 2)) t
  then F64.sub b (F64.mul diff_b_a (F64.sub (F64.of_Z 1) t))
  else F64.add a (F64.mul diff_b_a t).

(** The quantile [q] of values in increasing order: the value at position
    [(n - 1) * q], between two neighbours in proportion.  A position at
    the last value or above reads the last value twice.  For the quartiles
    the position and the proportion are exact in binary64. *)
Definition interpolate (a : list F64.float) (q : Q) : F64.float :=
  match a with
  | [] => F64.nan
  | x0 :: _ =>
      let n := Z.of_nat (length a) in
      let h := (inject_Z (n - 1) * q)%Q in
      if Qle_bool (inject_Z (n - 1)) h
      then lerp (List.last a x0) (List.last a x0) (F64.of_Q (h + 1))
      else
        let i := Z.max 0 (Qfloor h) in
        lerp (nth (Z.to_nat i) a x0) (nth (Z.to_nat (i + 1)) a x0)
             (F64.of_Q (h - inject_Z (Qfloor h)))
  end.

(** [Series.quantile(q)]: the quantile of the sorted values, missing
    values apart; NaN when there is no value. *)
Definition quantile (values : list (option F64.float)) (q : Q) : F64.float :=
  interpolate (sort_f (omap id values)) q.

(** The values of a column of floats; a column of another type is not
    one the filter can be given, [TypeError] stands for it. *)
Fixpoint float_values (col : list cell) : result (list (option F64.float)) :=
  match col with
  | [] => Ok []
  | c :: col' =>
      rbind (match c with
             | CNum x => Ok (F64.to_option x)
             | CNaN => Ok None
             | _ => Raise (TypeError "not a float column")
             end)
        (fun v => rbind (float_values col') (fun vs => Ok (v :: vs)))
  end.

(** [(v >= lower_bound) & (v <= upper_bound)]; a comparison with a missing
    value is false. *)
Definition within (lower_bound upper_bound : F64.float) (c : cell) : bool :=
  match num_of c with
  | Some v => F64.leb lower_bound v && F64.leb v upper_bound
  | None => false
  end.

(** [remove_outliers], lines 83-94. *)
Definition remove_outliers (df : DataFrame) (column : string) : result DataFrame :=
  if mem_str column skip_variables then Ok df
  else
    rbind (getitem df column) (fun col =>
    rbind (float_values col) (fun values =>
      let Q1 := quantile values (1 # 4) in
      let Q3 := quantile values (3 # 4) in
      let IQR := F64.sub Q3 Q1 in
      let lower_bound := F64.sub Q1 (F64.mul (F64.of_Q (3 # 2)) IQR) in
      let upper_bound := F64.add Q3 (F64.mul (F64.of_Q (3 # 2)) IQR) in
      match index_of column (columns df) with
      | Some i =>
          Ok (select (fun row => within lower_bound upper_bound (get_cell i row)) df)
      | None => Raise (KeyError column)
      end)).

(** ** Resampling *)

(** One row of [all_data], on the columns the plot and the export read. *)
Record series_row : Type := mk_row {
  TimeString : option Z;
  VarValue : option F64.float;
  ElapsedTime : option F64.float;
  VariableName : string
}.

(** One step of the compensated sum of [group_mean]: the running sum and
    the error carried along; an error that is NaN is dropped. *)
Definition sum_step (acc : F64.float * F64.float) (val : F64.float)
  : F64.float * F64.float :=
  let '(sumx, compensation) := acc in
  let y := F64.sub val compensation in
  let t := F64.add sumx y in
  let c := F64.sub (F64.sub t sumx) y in
  (t, if F64.is_nan c then F64.zero else c).

(** [mean()] of the values of a bucket, missing values apart: their sum,
    added up in the order of the rows, over their number. *)
Definition mean (values : list (option F64.float)) : option F64.float :=
  match omap id values with
  | [] => None
  | (_ :: _) as l =>
      F64.to_option
        (F64.div (fold_left sum_step l (F64.zero, F64.zero)).1
                 (F64.of_Z (Z.of_nat (length l))))
  end.

(** [fillna(method='ffill')] on one column, [prev] being the last value
    seen. *)
Fixpoint ffill (prev : option F64.float) (l : list (option F64.float))
  : list (option F64.float) :=
  match l with
  | [] => []
  | x :: l' =>
      let v := match x with Some _ => x | None => prev end in
      v :: ffill v l'
  end.

(** The minute a second falls in. *)
Definition bucket_of (t : Z) : Z := t / 60.

(** A reading: its timestamp, its value and its elapsed time. *)
Definition reading : Type := Z * option F64.float * option F64.float.

Definition in_bucket (b : Z) (r : reading) : bool := bucket_of (r.1.1) =? b.

(** The readings in the order of their timestamps; readings of one
    timestamp stay in the order of the rows. *)
Fixpoint insert_reading (x : reading) (l : list reading) : list reading :=
  match l with
  | [] => [x]
  | y :: l' => if x.1.1 <=? y.1.1 then x :: l else y :: insert_reading x l'
  end.

Definition sort_readings (l : list reading) : list reading :=
  fold_right insert_reading [] l.

(** [resample('1T').mean()]: a bucket for every minute from the first to
    the last timestamp, with the mean of its readings, taken in the order
    of their timestamps. *)
Definition resample_mean (readings : list reading)
  : list (Z * option F64.float * option F64.float) :=
  match map (fun r : reading => bucket_of (r.1.1)) readings with
  | [] => []
  | b0 :: bs =>
      let first := fold_right Z.min b0 bs in
      let last := fold_right Z.max b0 bs in
      map (fun b =>
             let here := List.filter (in_bucket b) (sort_readings readings) in
             (b, mean (map (fun r : reading => r.1.2) here),
                 mean (map (fun r : reading => r.2) here)))
          (seqZ first (last - first + 1))
  end.

(** [resample('1T').mean().fillna(method='ffill').reset_index()] *)
Definition resample_ffill (readings : list reading)
  : list (Z * option F64.float * option F64.float) :=
  let buckets := resample_mean readings in
  let values := ffill None (map (fun x => x.1.2) buckets) in
  let elapsed := ffill None (map (fun x => x.2) buckets) in
  zip_with (fun b ve => (b * 60, ve.1, ve.2))
           (map (fun x => x.1.1) buckets) (zip values elapsed).

(** The readings of a table indexed by [TimeString]: rows without a
    timestamp belong to no bucket. *)
Definition readings_of (df : DataFrame) : list reading :=
  match index_of "TimeString" (columns df), index_of "VarValue" (columns df),
        index_of "ElapsedTime" (columns df) with
  | Some it, Some iv, Some ie =>
      omap (fun row =>
              match time_of (get_cell it row) with
              | Some t => Some (t, num_of (get_cell iv row), num_of (get_cell ie row))
              | None => None
              end) (rows df)
  | _, _, _ => []
  end.

(** The rows of a table as rows of [all_data]. *)
Definition rows_of (df : DataFrame) (var_name : string) : list series_row :=
  let cell_at name row :=
    match index_of name (columns df) with
    | Some i => get_cell i row
    | None => CNaN
    end in
  map (fun row => mk_row (time_of (cell_at "TimeString" row))
                         (num_of (cell_at "VarValue" row))
                         (num_of (cell_at "ElapsedTime" row))
                         var_name)
      (rows df).

(** [var.split('_', 1)] unpacked into two names; [None] when the unpacking
    raises [ValueError]. *)
Definition split_selection (var : string) : option (string * string) :=
  match PyStr.split1 "_" (PyStr.chars var) with
  | [prefix; var_name] => Some (PyStr.str prefix, PyStr.str var_name)
  | _ => None
  end.

(** The body of the loop over the process variables, lines 962-992: the
    rows that one selected variable adds to [all_data]. *)
Definition load_variable (output_bucket : gmap string DataFrame) (var : string)
  : result (list series_row) :=
  match split_selection var with
  | None => Ok []
  | Some (prefix, var_name) =>
      let file_path := prefix ++ "_" ++ var_name ++ ".csv" in
      match output_bucket !! file_path with
      | None => Ok []
      | Some df =>
          match getitem df "TimeString", getitem df "VarValue" with
          | Ok times, Ok _ =>
              let times := map to_datetime times in
              let df := set_column df "TimeString" times in
              if forallb isnull times then Ok []
              else
                rbind (elapsed_minutes times) (fun elapsed =>
                let df := set_column df "ElapsedTime" elapsed in
                rbind (getitem df "VarValue") (fun values =>
                rbind (if existsb is_str values
                       then rbind (to_float_column values) (fun values' =>
                              Ok (set_column df "VarValue" values'))
                       else Ok df) (fun df =>
                rbind (remove_outliers df "VarValue") (fun df =>
                  if negb (mem_str var_name skip_variables)
                  then Ok (map (fun b => mk_row (Some b.1.1) b.1.2 b.2 var_name)
                               (resample_ffill (readings_of df)))
                  else Ok (rows_of df var_name)))))
          | _, _ => Ok []
          end
      end
  end.

(** Lines 957-992: [all_data] after the loop over the selected process
    variables. *)
Fixpoint load_variables (output_bucket : gmap string DataFrame)
    (selected_variables : list string) (all_data : list series_row)
  : result (list series_row) :=
  match selected_variables with
  | [] => Ok all_data
  | var :: selected_variables' =>
      rbind (load_variable output_bucket var) (fun df_resampled =>
        load_variables output_bucket selected_variables'
                       (all_data ++ df_resampled))
  end.

(** ** Plot assembler *)

Inductive trace_kind : Type :=
  | ScatterMarkersLines
  | Bar
  | ScatterLines.

Record trace : Type := mk_trace {
  kind : trace_kind;
  name : string;
  secondary_y : bool
}.

(** The figure of [make_subplots(specs=[[{"secondary_y": True}]])]: its
    traces, oldest first, and the titles of its two Y axes. *)
Record figure : Type := mk_figure {
  traces : list trace;
  yaxis_title : option string;
  yaxis2_title : option string
}.

Definition empty_figure : figure := mk_figure [] None None.

(** [fig.add_trace(_, secondary_y=...)] and
    [fig.update_yaxes(title_text=..., secondary_y=...)] *)
Definition add_trace (t : trace) (fig : figure) : figure :=
  mk_figure (traces fig ++ [t]) (yaxis_title fig) (yaxis2_title fig).

Definition update_yaxes (title : string) (secondary : bool) (fig : figure)
  : figure :=
  if secondary then mk_figure (traces fig) (yaxis_title fig) (Some title)
  else mk_figure (traces fig) (Some title) (yaxis2_title fig).

(** The body of the loop over the groups, lines 1096-1142. *)
Definition plot_group (variable_unit_map : dict string)
    (new_variables manual_variables : list string)
    (acc : dict Z * figure) (var_name : string) : dict Z * figure :=
  let '(yaxes_used, fig) := acc in
  let display_name := dict_get_default var_name variable_display_names var_name in
  let yaxis_title := dict_get_default var_name variable_unit_map "Value" in
  let yaxes_used :=
    match dict_get yaxis_title yaxes_used with
    | Some _ => yaxes_used
    | None => dict_set yaxis_title (Z.of_nat (length yaxes_used) + 1) yaxes_used
    end in
  let slot := dict_get_default yaxis_title yaxes_used 0 in
  let secondary_y := 1 <? slot in
  let kind :=
    if mem_str var_name manual_variables then ScatterMarkersLines
    else if mem_str var_name new_variables then Bar
    else ScatterLines in
  (yaxes_used,
   update_yaxes yaxis_title secondary_y
     (add_trace (mk_trace kind display_name secondary_y) fig)).

(** Lines 1091-1142, for the groups of [all_data] in the order of
    [groupby]: the final [yaxes_used] and the figure. *)
Definition assemble_plot (variable_unit_map : dict string)
    (new_variables manual_variables : list string) (groups : list string)
  : dict Z * figure :=
  fold_left (plot_group variable_unit_map new_variables manual_variables)
            groups ([], empty_figure).

(** The keys of [all_data.groupby('Variable')]: the variables, sorted. *)
Definition group_keys (all_data : list series_row) : list string :=
  sorted_set (map VariableName all_data).

(** ** The render callback, for process variables *)

(** [sort_values(by=['Variable', 'TimeString'])]: stable, a missing
    timestamp after the others. *)
Definition row_leb (a b : series_row) : bool :=
  match String.compare (VariableName a) (VariableName b) with
  | Lt => true
  | Gt => false
  | Eq =>
      match TimeString a, TimeString b with
      | Some x, Some y => x <=? y
      | _, None => true
      | None, Some _ => false
      end
  end.

Fixpoint insert_row (x : series_row) (l : list series_row) : list series_row :=
  match l with
  | [] => [x]
  | y :: l' => if row_leb x y then x :: l else y :: insert_row x l'
  end.

Definition sort_rows (l : list series_row) : list series_row :=
  fold_right insert_row [] l.

(** [[var.split('_', 1)[1] for var in selected_variables]] *)
Fixpoint export_names (selected_variables : list string) : result (list string) :=
  match selected_variables with
  | [] => Ok []
  | var :: selected_variables' =>
      match PyStr.split1 "_" (PyStr.chars var) with
      | _ :: var_name :: _ =>
          rbind (export_names selected_variables') (fun names =>
            Ok (PyStr.str var_name :: names))
      | _ => Raise (IndexError "list index out of range")
      end
  end.

(** A record of the export: the time or the elapsed minutes, the variable
    and the value. *)
Inductive export_x : Type :=
  | Time (t : option Z)
  | ElapsedMinutes (m : option F64.float).

Definition export_record : Type := export_x * string * option F64.float.

Inductive graph_output : Type :=
  | Message (title : string)
  | Figure (fig : figure) (x_label : string) (export : list export_record).

(** [update_graph], lines 946-1165, when only process variables are
    selected ([new_variables] and [manual_variables] empty): the two loops
    over them add nothing and the unit map is [variable_units]. *)
Definition update_graph (output_bucket : gmap string DataFrame)
    (selected_variables : option (list string)) (time_mode : string)
  : result graph_output :=
  let selected_variables := default [] selected_variables in
  match selected_variables with
  | [] => Ok (Message "Please select variables to display.")
  | _ :: _ =>
      rbind (load_variables output_bucket selected_variables []) (fun all_data =>
        match all_data with
        | [] => Ok (Message "No data to display.")
        | _ :: _ =>
            let all_data := sort_rows all_data in
            let x_label := if String.eqb time_mode "elapsed"
                           then "Elapsed Time (minutes)" else "Time (Absolute)" in
            rbind (export_names selected_variables) (fun names =>
              let export_data :=
                List.filter (fun r => mem_str (VariableName r) names) all_data in
              let export_data :=
                map (fun r =>
                       (if String.eqb time_mode "absolute"
                        then Time (TimeString r)
                        else ElapsedMinutes (ElapsedTime r),
                        VariableName r, VarValue r)) export_data in
              let fig := (assemble_plot variable_units [] [] (group_keys all_data)).2 in
              Ok (Figure fig x_label export_data))
        end)
  end.

(** ** What the properties speak of *)

(** The rows of a raw file that belong to a variable. *)
Definition rows_of_variable (var_name : string) (df : DataFrame) : DataFrame :=
  match index_of "VarName" (columns df) with
  | Some i => select (fun row => cell_is var_name (get_cell i row)) df
  | None => empty_frame
  end.

(** The accumulator of a variable after the files of a run, from [acc]. *)
Definition accumulate (bucket : gmap string DataFrame) (files : list string)
    (var_name : string) (acc : DataFrame) : DataFrame :=
  fold_left (fun acc file =>
               match bucket !! file with
               | Some df =>
                   let filtered_df := rows_of_variable var_name df in
                   if df_empty filtered_df then acc else concat acc filtered_df
               | None => acc
               end) files acc.

(** A dictionary with the keys [vars], in this order. *)
Definition keyed (A : string -> DataFrame) (vars : list string) : dict DataFrame :=
  map (fun v => (v, A v)) vars.

(** What [process_csv_file] returns for a file with a [VarName] column. *)
Definition entries (df : DataFrame) (vars : list string) : dict DataFrame :=
  List.filter (fun e => negb (df_empty e.2))
              (map (fun v => (v, rows_of_variable v df)) vars).

(** The state after the uploads of a list of tables. *)
Definition uploaded (filename_prefix : string) (l : dict DataFrame) (st : state)
  : state :=
  fold_left (fun st e => upload (output_file filename_prefix e.1) e.2 st) l st.

(** A raw file that [process_csv_file] can read. *)
Definition readable (bucket : gmap string DataFrame) (file : string) : bool :=
  match bucket !! file with
  | Some df => has_column "VarName" df
  | None => false
  end.

(** What holds of [yaxes_used] once the first group is plotted: its unit
    has slot 1, every other unit a larger slot. *)
Definition slots_ok (u0 : string) (yaxes_used : dict Z) : Prop :=
  dict_get u0 yaxes_used = Some 1
  /\ (forall u n, dict_get u yaxes_used = Some n -> u <> u0 -> 1 < n)
  /\ (1 <= length yaxes_used)%nat.

(** The order of the floats that are numbers. *)
Definition le_f (x y : F64.float) : Prop := F64.leb x y = true.



(** The minutes from the time [t0] to a timestamp. *)
Definition minutes_since (t0 : Z) (c : cell) : cell :=
  match time_of c with
  | Some t =>
      num (F64.div (F64.div (F64.of_Z ((t - t0) * 1000000000)) (F64.of_Z 1000000000))
                   (F64.of_Z 60))
  | None => CNaN
  end.



(** A table with one column of integers. *)
Definition one_column (name : string) (values : list Z) : DataFrame :=
  mk_df [name] (map (fun v => [CNum (F64.of_Z v)]) values).

(** A merged file with a time and a value in every row. *)
Definition merged_file (readings : list (string * Z)) : DataFrame :=
  mk_df ["TimeString"; "VarValue"]
        (map (fun r => [CStr r.1; CNum (F64.of_Z r.2)]) readings).

(** A raw export: the variable, the time and the value of every row. *)
Definition raw_file (rows : list (string * string * Z)) : DataFrame :=
  mk_df ["VarName"; "TimeString"; "VarValue"]
        (map (fun r => [CStr r.1.1; CStr r.1.2; CNum (F64.of_Z r.2)]) rows).

(** A process with two raw exports of January 2024, a third file of March
    2024 without the [VarName] column, and one merged file of an earlier
    batch. *)
Definition sample_state : state :=
  mk_state
    {[ "plc_log_20240115_a.csv" :=
         raw_file [("AO Values_10R001", "15-01-2024 00:00:00", 50);
                   ("30P001.HMI.STATUS", "15-01-2024 00:00:00", 1)];
       "plc_log_20240116_a.csv" :=
         raw_file [("AO Values_10R001", "16-01-2024 00:00:00", 60)];
       "plc_log_20240301_a.csv" := mk_df ["TimeString"; "VarValue"] [] ]}
    {[ "B1_AO Values_10R002.csv" := one_column "VarValue" [1] ]}
    [("AO Values_10R002", one_column "VarValue" [1])]
    ["B0"]
    [].

(** * Properties *)

(** ** Strings and file names *)

Section Strings.

Local Open Scope list_scope.

Lemma chars_str (l : list ascii) : PyStr.chars (PyStr.str l) = l.
Proof. apply list_ascii_of_string_of_list_ascii. Qed.

Lemma str_chars (s : string) : PyStr.str (PyStr.chars s) = s.
Proof. apply string_of_list_ascii_of_string. Qed.

Lemma chars_app (s t : string) :
  PyStr.chars (s ++ t)%string = PyStr.chars s ++ PyStr.chars t.
Proof. induction s as [|c s IH]; simpl; [reflexivity | now rewrite <- IH]. Qed.

Lemma chars_inj (s t : string) : PyStr.chars s = PyStr.chars t -> s = t.
Proof. intros H. rewrite <- (str_chars s), <- (str_chars t). now rewrite H. Qed.

Lemma rstrip_nil_iff (l : list ascii) :
  PyStr.rstrip l = [] <-> Forall (fun c => PyStr.isspace c = true) l.
Proof.
  induction l as [|c r IH]; simpl.
  - split; [constructor | reflexivity].
  - destruct (PyStr.rstrip r) as [|x r'] eqn:E.
    + destruct (PyStr.isspace c) eqn:Hc.
      * split; [intros _; constructor; [assumption | now apply IH] | reflexivity].
      * split; [discriminate | intros H; inversion H; congruence].
    + split; [discriminate |].
      intros H. inversion H as [|? ? _ Hr]; subst.
      apply IH in Hr. discriminate.
Qed.

(** [rstrip] removes a run of white space at the end, and nothing else. *)
Lemma rstrip_split (l : list ascii) :
  exists ws, l = PyStr.rstrip l ++ ws /\ Forall (fun c => PyStr.isspace c = true) ws.
Proof.
  induction l as [|c r (ws & Hr & Hws)]; simpl.
  - exists []. split; [reflexivity | constructor].
  - destruct (PyStr.rstrip r) as [|x r'] eqn:E.
    + simpl in Hr. subst r.
      destruct (PyStr.isspace c) eqn:Hc.
      * exists (c :: ws). split; [reflexivity | now constructor].
      * exists ws. split; [reflexivity | assumption].
    + exists ws. split; [simpl; now rewrite Hr at 1 | assumption].
Qed.

(** What [rstrip] returns does not end in white space. *)
Lemma rstrip_last (l pre : list ascii) (c : ascii) :
  PyStr.rstrip l = pre ++ [c] -> PyStr.isspace c = false.
Proof.
  revert pre. induction l as [|a r IH]; intros pre; simpl.
  - destruct pre; discriminate.
  - destruct (PyStr.rstrip r) as [|x r'] eqn:E.
    + destruct (PyStr.isspace a) eqn:Ha.
      * destruct pre; discriminate.
      * destruct pre as [|p [|q pre]]; simpl; intros H; inversion H; subst.
        assumption.
    + destruct pre as [|p pre]; simpl; intros H; inversion H; subst.
      now apply (IH pre).
Qed.

Lemma rstrip_idem (l : list ascii) : PyStr.rstrip (PyStr.rstrip l) = PyStr.rstrip l.
Proof.
  induction l as [|c r IH]; simpl; [reflexivity |].
  destruct (PyStr.rstrip r) as [|x r'] eqn:E.
  - destruct (PyStr.isspace c) eqn:Hc; simpl; [reflexivity | now rewrite Hc].
  - change (PyStr.rstrip (c :: x :: r')) with
      (match PyStr.rstrip (x :: r') with
       | [] => if PyStr.isspace c then [] else [c]
       | r'' => c :: r''
       end).
    now rewrite IH.
Qed.

Lemma sanitize_char_allowed (c : ascii) : allowed (sanitize_char c) = true.
Proof. destruct c as [[] [] [] [] [] [] [] []]; vm_compute; reflexivity. Qed.

Lemma sanitize_char_fixed (c : ascii) : allowed c = true -> sanitize_char c = c.
Proof. unfold sanitize_char, allowed. now intros ->. Qed.

Lemma sanitize_char_changes (c : ascii) :
  allowed c = false -> sanitize_char c = "_"%char.
Proof. unfold sanitize_char, allowed. now intros ->. Qed.

Lemma map_sanitize_fixed (l : list ascii) :
  Forall (fun c => allowed c = true) l -> map sanitize_char l = l.
Proof.
  induction 1 as [|c l Hc _ IH]; simpl; [reflexivity |].
  now rewrite IH, sanitize_char_fixed.
Qed.

Lemma sanitized_allowed (s : string) :
  Forall (fun c => allowed c = true) (PyStr.chars (sanitize_filename s)).
Proof.
  unfold sanitize_filename. rewrite chars_str.
  destruct (rstrip_split (map sanitize_char (PyStr.chars s))) as (ws & Hl & _).
  assert (H : Forall (fun c => allowed c = true) (map sanitize_char (PyStr.chars s))).
  { apply Forall_forall. intros c Hc. apply list_elem_of_In, in_map_iff in Hc.
    destruct Hc as (c0 & <- & _). apply sanitize_char_allowed. }
  rewrite Hl in H. now apply Forall_app in H.
Qed.

End Strings.

(** C8.  [sanitize_filename] maps every character that is not alphanumeric
    and not a space, an underscore or a hyphen to an underscore and keeps
    the others, then removes the white space at the end and nothing else:
    the result does not end in white space, and ["A/B C"] becomes
    ["A_B C"]. *)
Theorem sanitize_filename_replaces_and_strips (s : string) :
  (forall c, sanitize_char c =
             if PyStr.isalnum c || Ascii.eqb c " " || Ascii.eqb c "_"
                || Ascii.eqb c "-"
             then c else "_"%char)
  /\ (exists ws,
        map sanitize_char (PyStr.chars s)
        = (PyStr.chars (sanitize_filename s) ++ ws)%list
        /\ Forall (fun c => PyStr.isspace c = true) ws)
  /\ (forall pre c, PyStr.chars (sanitize_filename s) = (pre ++ [c])%list ->
                    PyStr.isspace c = false)
  /\ sanitize_filename "A/B C" = "A_B C".
Proof.
  split; [reflexivity |]. unfold sanitize_filename. rewrite chars_str.
  split; [apply rstrip_split |].
  split; [intros pre c; apply rstrip_last | reflexivity].
Qed.

(** C10.  [sanitize_filename] is idempotent; every character of its
    result is alphanumeric, a space, an underscore or a hyphen, and the
    result does not end in white space. *)
Theorem sanitize_filename_idempotent (s : string) :
  sanitize_filename (sanitize_filename s) = sanitize_filename s
  /\ Forall (fun c => allowed c = true) (PyStr.chars (sanitize_filename s))
  /\ (forall pre c, PyStr.chars (sanitize_filename s) = (pre ++ [c])%list ->
                    PyStr.isspace c = false).
Proof.
  pose proof (sanitized_allowed s) as Hall.
  split; [| split; [exact Hall |]].
  - unfold sanitize_filename at 1.
    rewrite (map_sanitize_fixed _ Hall).
    unfold sanitize_filename. rewrite chars_str, rstrip_idem. reflexivity.
  - unfold sanitize_filename. rewrite chars_str. intros pre c. apply rstrip_last.
Qed.

(** ** The dropdown value and its two parts *)

Section Selection.

Local Open Scope list_scope.

Lemma split1_absent (sep : ascii) (l : list ascii) :
  ~ In sep l -> PyStr.split1 sep l = [l].
Proof.
  induction l as [|c r IH]; simpl; intros H; [reflexivity |].
  destruct (Ascii.eqb_spec c sep) as [->|Hne]; [exfalso; apply H; now left |].
  rewrite IH; [reflexivity | intros Hin; apply H; now right].
Qed.

Lemma split1_first (sep : ascii) (p q : list ascii) :
  ~ In sep p -> PyStr.split1 sep (p ++ sep :: q) = [p; q].
Proof.
  induction p as [|c r IH]; simpl; intros H.
  - now rewrite Ascii.eqb_refl.
  - destruct (Ascii.eqb_spec c sep) as [->|Hne]; [exfalso; apply H; now left |].
    rewrite IH; [reflexivity | intros Hin; apply H; now right].
Qed.

(** The first occurrence of a character. *)
Lemma first_occurrence (sep : ascii) (l : list ascii) :
  In sep l -> exists a b, l = a ++ sep :: b /\ ~ In sep a.
Proof.
  induction l as [|c r IH]; simpl; [intros [] |].
  destruct (Ascii.eqb_spec c sep) as [->|Hne]; intros H.
  - exists [], r. split; [reflexivity | intros []].
  - destruct H as [H|H]; [contradiction |].
    destruct (IH H) as (a & b & -> & Ha).
    exists (c :: a), b. split; [reflexivity |].
    intros [Hc|Hin]; [contradiction | now apply Ha].
Qed.

Lemma chars_labeled (prefix var_name : string) :
  PyStr.chars (labeled_var_name prefix var_name)
  = PyStr.chars prefix ++ "_"%char :: PyStr.chars var_name.
Proof. unfold labeled_var_name. now rewrite chars_app. Qed.

Lemma In_ascii_dec (c : ascii) (l : list ascii) : {In c l} + {~ In c l}.
Proof. apply in_dec, Ascii.ascii_dec. Qed.

End Selection.

(** C9.  The graph callback splits the dropdown value
    [prefix ++ "_" ++ var_name] at its first underscore.  The two parts,
    joined by an underscore again, are the value itself, so the file path
    is the one of the value.  They are the prefix and the variable exactly
    when the prefix has no underscore; when it has one, the second part is
    not the variable's name. *)
Theorem selection_round_trip (prefix var_name : string) :
  exists p v,
    split_selection (labeled_var_name prefix var_name) = Some (p, v)
    /\ (p ++ "_" ++ v ++ ".csv")%string
       = (labeled_var_name prefix var_name ++ ".csv")%string
    /\ ((p, v) = (prefix, var_name) <-> ~ In "_"%char (PyStr.chars prefix))
    /\ (In "_"%char (PyStr.chars prefix) -> v <> var_name).
Proof.
  unfold split_selection. rewrite chars_labeled.
  destruct (In_ascii_dec "_" (PyStr.chars prefix)) as [Hin|Hout].
  - destruct (first_occurrence _ _ Hin) as (a & b & Hab & Ha).
    rewrite Hab, <- app_assoc. simpl. rewrite (split1_first _ _ _ Ha).
    set (rest := (b ++ "_"%char :: PyStr.chars var_name)%list).
    assert (Hlen : PyStr.str rest <> var_name).
    { intros E. apply (f_equal PyStr.chars) in E. rewrite chars_str in E.
      apply (f_equal (@length ascii)) in E. unfold rest in E.
      rewrite length_app in E. simpl in E. lia. }
    exists (PyStr.str a), (PyStr.str rest). split; [reflexivity |].
    split; [| split].
    + apply chars_inj. unfold labeled_var_name, rest.
      rewrite !chars_app, !chars_str, Hab. simpl.
      rewrite <- !app_assoc. reflexivity.
    + split; [intros E; exfalso; apply Hlen; congruence | intros Hn; exfalso; apply Hn; rewrite <- Hab; exact Hin].
    + intros _. exact Hlen.
  - rewrite (split1_first _ _ _ Hout).
    exists prefix, var_name. rewrite !str_chars.
    split; [reflexivity |].
    split; [apply chars_inj; unfold labeled_var_name;
            rewrite !chars_app, <- !app_assoc; reflexivity |].
    split; [split; [intros _; exact Hout | reflexivity] | contradiction].
Qed.

(** ** File indexer *)

Section Indexer.

Local Open Scope list_scope.

(** The date read in a file name: the third part between underscores, when
    it is there and [strptime] accepts it. *)
Lemma filter_files_by_date_In (files : list string) (start_date end_date : datetime)
    (f : string) :
  In f (filter_files_by_date files start_date end_date) <->
  In f files /\
  exists tok d,
    PyStr.split "_" (PyStr.chars f) !! 2%nat = Some tok
    /\ strptime_Ymd tok = Ok d
    /\ dt_leb start_date d = true /\ dt_leb d end_date = true.
Proof.
  induction files as [|file files IH]; simpl.
  - split; [intros [] | intros [[] _]].
  - assert (Hskip :
      ~ (exists tok d,
            PyStr.split "_" (PyStr.chars file) !! 2%nat = Some tok
            /\ strptime_Ymd tok = Ok d
            /\ dt_leb start_date d = true /\ dt_leb d end_date = true) ->
      In f (filter_files_by_date files start_date end_date) <->
      (file = f \/ In f files) /\
      exists tok d,
        PyStr.split "_" (PyStr.chars f) !! 2%nat = Some tok
        /\ strptime_Ymd tok = Ok d
        /\ dt_leb start_date d = true /\ dt_leb d end_date = true).
    { intros Hno. rewrite IH. split.
      - intros [Hin Hd]. split; [now right | exact Hd].
      - intros [[->|Hin] Hd]; [contradiction | now split]. }
    destruct (PyStr.split "_" (PyStr.chars file)) as [|p0 [|p1 [|tok rest]]] eqn:Hs;
      try (apply Hskip; intros (tok' & d & Htok & _); discriminate).
    destruct (strptime_Ymd tok) as [d|e] eqn:Hp.
    + destruct (dt_leb start_date d && dt_leb d end_date) eqn:Hr.
      * apply andb_true_iff in Hr. simpl. rewrite IH. split.
        -- intros [<-|[Hin Hd]].
           ++ split; [now left |]. exists tok, d. rewrite Hs. now repeat split.
           ++ split; [now right | exact Hd].
        -- intros [[->|Hin] Hd]; [now left | right; now split].
      * apply Hskip. intros (tok' & d' & Htok & Hp' & H1 & H2).
        simpl in Htok. inversion Htok; subst tok'.
        rewrite Hp in Hp'. inversion Hp'; subst d'.
        rewrite H1, H2 in Hr. discriminate.
    + apply Hskip. intros (tok' & d' & Htok & Hp' & _).
      simpl in Htok. inversion Htok; subst tok'. congruence.
Qed.

Lemma lex_leb_refl (a : list Z) : lex_leb a a = true.
Proof.
  induction a as [|x a IH]; simpl; [reflexivity |].
  rewrite Z.eqb_refl, IH. apply orb_true_r.
Qed.

End Indexer.

(** C3, as the specification states it: the file named [x_20240115_y.csv]
    would be kept for January 2024.  Its third part is [y.csv], which is
    no date, so the filter skips it. *)
Lemma date_in_second_part_is_skipped :
  ~ In "x_20240115_y.csv"
       (filter_files_by_date ["x_20240115_y.csv"]
          (mk_datetime 2024 1 1 0 0 0 0) (mk_datetime 2024 1 31 0 0 0 0)).
Proof. vm_compute. intros []. Qed.

(** C3, amended.  The date filter splits a name on underscores, reads the
    third part as [YYYYMMDD], and keeps the file exactly when that date is
    between the start and the end, both included; a name with fewer than
    three parts or with a third part that is no date is skipped and the
    others are still filtered.  A name with [20240115] as its third part
    is kept for January 2024 and left out for February 2024;
    [x_20240115_y.csv], whose third part is [y.csv], is left out for
    both. *)
Theorem filter_files_by_date_third_part
    (files : list string) (start_date end_date : datetime) (f : string) :
  (In f (filter_files_by_date files start_date end_date) <->
   In f files /\
   exists tok d,
     PyStr.split "_" (PyStr.chars f) !! 2%nat = Some tok
     /\ strptime_Ymd tok = Ok d
     /\ dt_leb start_date d = true /\ dt_leb d end_date = true)
  /\ (forall d, dt_leb d d = true)
  /\ (let jan := (mk_datetime 2024 1 1 0 0 0 0, mk_datetime 2024 1 31 0 0 0 0) in
      let feb := (mk_datetime 2024 2 1 0 0 0 0, mk_datetime 2024 2 28 0 0 0 0) in
      let names := ["x_20240115_y.csv"; "x_y_20240115_z.csv"; "x_y"; "x_y_20240230_z.csv"] in
      filter_files_by_date names jan.1 jan.2 = ["x_y_20240115_z.csv"]
      /\ filter_files_by_date names feb.1 feb.2 = []).
Proof.
  split; [apply filter_files_by_date_In |].
  split; [intros d; apply lex_leb_refl |].
  split; reflexivity.
Qed.

(** ** Outlier filter *)

Section Outliers.

Local Open Scope list_scope.

Lemma insert_f_perm (x : F64.float) (l : list F64.float) :
  Permutation (x :: l) (insert_f x l).
Proof.
  induction l as [|y l IH]; simpl; [reflexivity |].
  destruct (F64.leb x y); [reflexivity |].
  rewrite <- IH. apply perm_swap.
Qed.

(** The values are sorted before the quantile is read: nothing is lost and
    the order is increasing. *)
Lemma sort_f_perm (l : list F64.float) : Permutation l (sort_f l).
Proof.
  induction l as [|x l IH]; simpl; [reflexivity |].
  rewrite <- insert_f_perm. now constructor.
Qed.

(** Of two floats that are numbers, one is below the other. *)
Lemma leb_total (x y : F64.float) :
  F64.is_nan x = false -> F64.is_nan y = false ->
  F64.leb x y = false -> F64.leb y x = true.
Proof.
  unfold F64.leb, SFleb.
  destruct x as [sx|sx| |sx mx ex], y as [sy|sy| |sy my ey]; simpl;
    try discriminate; try reflexivity;
    try (destruct sx; try destruct sy; simpl; congruence);
    try (destruct sy; simpl; congruence).
  intros _ _.
  change (Pos.compare_cont Eq mx my) with (Pos.compare mx my).
  change (Pos.compare_cont Eq my mx) with (Pos.compare my mx).
  rewrite (Z.compare_antisym ex ey), (Pos.compare_antisym mx my).
  destruct sx, sy; try congruence; try reflexivity;
    destruct (ex ?= ey)%Z; simpl; try congruence;
    destruct (mx ?= my)%positive; simpl; congruence.
Qed.

Lemma insert_f_sorted (x : F64.float) (l : list F64.float) :
  F64.is_nan x = false -> Forall (fun y => F64.is_nan y = false) l ->
  Sorted le_f l -> Sorted le_f (insert_f x l).
Proof.
  intros Hx. induction l as [|y l IH]; simpl; intros Hl Hs.
  - repeat constructor.
  - inversion Hl as [|? ? Hy Hl']; subst.
    destruct (F64.leb x y) eqn:E.
    + constructor; [assumption | now constructor].
    + assert (Hyx : le_f y x) by now apply leb_total.
      inversion Hs as [|? ? Hs' Hhd]; subst.
      constructor; [now apply IH |].
      destruct l as [|z l]; simpl; [now constructor |].
      destruct (F64.leb x z); constructor; [assumption |].
      now inversion Hhd.
Qed.

Lemma sort_f_numbers (l : list F64.float) :
  Forall (fun y => F64.is_nan y = false) l ->
  Forall (fun y => F64.is_nan y = false) (sort_f l).
Proof.
  intros H. now rewrite <- (sort_f_perm l).
Qed.

Lemma sort_f_sorted (l : list F64.float) :
  Forall (fun y => F64.is_nan y = false) l -> Sorted le_f (sort_f l).
Proof.
  induction l as [|x l IH]; simpl; intros H; [constructor |].
  inversion H; subst.
  apply insert_f_sorted; [assumption | now apply sort_f_numbers | now apply IH].
Qed.


Lemma float_values_ok (col : list cell) (values : list (option F64.float)) :
  float_values col = Ok values -> values = map num_of col.
Proof.
  revert values. induction col as [|c col IH]; simpl; intros values H.
  - now inversion H.
  - destruct c as [x|s|t|]; simpl in H; try discriminate;
      destruct (float_values col) as [vs|]; simpl in H; try discriminate;
      inversion H; now rewrite (IH vs eq_refl).
Qed.

Lemma num_of_numbers (col : list cell) :
  Forall (fun y => F64.is_nan y = false) (omap id (map num_of col)).
Proof.
  induction col as [|c col IH]; [constructor |].
  destruct c as [x|s|t|]; cbn; try exact IH.
  unfold F64.to_option. destruct (F64.is_nan x) eqn:E; cbn; [exact IH |].
  now constructor.
Qed.

Lemma within_iff (lower_bound upper_bound : F64.float) (c : cell) :
  within lower_bound upper_bound c = true <->
  exists v, c = CNum v /\ le_f lower_bound v /\ le_f v upper_bound.
Proof.
  unfold within, le_f. split.
  - destruct c as [v| | |]; simpl; try discriminate.
    unfold F64.to_option. destruct (F64.is_nan v); [discriminate |].
    intros H. apply andb_true_iff in H. now exists v.
  - intros (v & -> & H1 & H2). simpl. unfold F64.to_option.
    destruct v; cbn; try (now rewrite H1, H2).
    unfold F64.leb, SFleb in H1. destruct lower_bound; simpl in H1; discriminate.
Qed.

(** The two neighbours and the proportion of a quartile. *)
Lemma interpolate_quarters (a : list F64.float) (k : Z) :
  (2 <= length a)%nat -> 0 < k < 4 ->
  let n := Z.of_nat (length a) in
  exists lo hi,
    a !! Z.to_nat ((n - 1) * k / 4) = Some lo
    /\ a !! Z.to_nat ((n - 1) * k / 4 + 1) = Some hi
    /\ interpolate a (k # 4)
       = lerp lo hi (F64.of_Q ((((n - 1) * k) mod 4) # 4)).
Proof.
  intros Hn Hk n.
  destruct a as [|x0 a']; [simpl in Hn; lia |].
  assert (Hpos : 1 <= n - 1) by (subst n; simpl length in *; lia).
  assert (Hlt : (n - 1) * k / 4 + 1 <= n - 1).
  { assert ((n - 1) * k / 4 < n - 1); [| lia].
    apply Z.div_lt_upper_bound; nia. }
  assert (Hge : 0 <= (n - 1) * k / 4) by (apply Z.div_pos; nia).
  destruct (lookup_lt_is_Some_2 (x0 :: a') (Z.to_nat ((n - 1) * k / 4)))
    as [lo Hlo]; [subst n; lia |].
  destruct (lookup_lt_is_Some_2 (x0 :: a') (Z.to_nat ((n - 1) * k / 4 + 1)))
    as [hi Hhi]; [subst n; lia |].
  exists lo, hi. split; [exact Hlo |]. split; [exact Hhi |].
  unfold interpolate. fold n.
  assert (Hq : Qle_bool (inject_Z (n - 1)) (inject_Z (n - 1) * (k # 4)) = false).
  { unfold Qle_bool. cbn. apply Z.leb_gt. nia. }
  rewrite Hq.
  assert (Hf : Qfloor (inject_Z (n - 1) * (k # 4)) = (n - 1) * k / 4) by reflexivity.
  rewrite Hf, Z.max_r by exact Hge.
  rewrite (nth_lookup_Some _ _ x0 lo Hlo), (nth_lookup_Some _ _ x0 hi Hhi).
  f_equal. f_equal.
  unfold Qminus, Qplus, Qopp, Qmult, inject_Z. cbn.
  f_equal. rewrite Z.mod_eq by lia. lia.
Qed.

End Outliers.

(** C6.  For a column that is not on the skip list, [remove_outliers]
    takes the values of the column in increasing order, reads the
    quartiles Q1 and Q3 off them (the values at the positions (n - 1) / 4
    and 3 (n - 1) / 4, between two neighbours in proportion), and keeps,
    in their order, exactly the rows whose value [v] satisfies
    Q1 - 1.5 (Q3 - Q1) <= v <= Q3 + 1.5 (Q3 - Q1), the fences being
    computed in binary64 as the code does.  For the values
    1, 2, 3, 4, 100 the quartiles are 2 and 4; 100 is removed and
    1, 2, 3, 4 are kept; the same holds when the column is not sorted, and
    of 4, 1, 3, 2 the quartiles are 1.75 and 3.25. *)
Theorem remove_outliers_keeps_rows_within_fences
    (df : DataFrame) (column : string) (values : list (option F64.float)) :
  mem_str column skip_variables = false ->
  rbind (getitem df column) float_values = Ok values ->
  (exists i sorted keep,
      let n := Z.of_nat (length sorted) in
      let Q1 := interpolate sorted (1 # 4) in
      let Q3 := interpolate sorted (3 # 4) in
      let IQR := F64.sub Q3 Q1 in
      let lower_bound := F64.sub Q1 (F64.mul (F64.of_Q (3 # 2)) IQR) in
      let upper_bound := F64.add Q3 (F64.mul (F64.of_Q (3 # 2)) IQR) in
      index_of column (columns df) = Some i
      /\ Permutation (omap id values) sorted
      /\ Sorted le_f sorted
      /\ ((2 <= length sorted)%nat ->
          exists lo1 hi1 lo3 hi3,
            sorted !! Z.to_nat ((n - 1) / 4) = Some lo1
            /\ sorted !! Z.to_nat ((n - 1) / 4 + 1) = Some hi1
            /\ Q1 = lerp lo1 hi1 (F64.of_Q (((n - 1) mod 4) # 4))
            /\ sorted !! Z.to_nat ((n - 1) * 3 / 4) = Some lo3
            /\ sorted !! Z.to_nat ((n - 1) * 3 / 4 + 1) = Some hi3
            /\ Q3 = lerp lo3 hi3 (F64.of_Q ((((n - 1) * 3) mod 4) # 4)))
      /\ remove_outliers df column
         = Ok (mk_df (columns df) (List.filter keep (rows df)))
      /\ forall row,
           keep row = true <->
           exists v, get_cell i row = CNum v
                     /\ le_f lower_bound v /\ le_f v upper_bound)
  /\ quantile (map (fun v => Some (F64.of_Z v)) [1; 2; 3; 4; 100]) (1 # 4)
     = F64.of_Z 2
  /\ quantile (map (fun v => Some (F64.of_Z v)) [1; 2; 3; 4; 100]) (3 # 4)
     = F64.of_Z 4
  /\ remove_outliers (one_column "VarValue" [1; 2; 3; 4; 100]) "VarValue"
     = Ok (one_column "VarValue" [1; 2; 3; 4])
  /\ quantile (map (fun v => Some (F64.of_Z v)) [100; 3; 1; 4; 2]) (1 # 4)
     = F64.of_Z 2
  /\ quantile (map (fun v => Some (F64.of_Z v)) [100; 3; 1; 4; 2]) (3 # 4)
     = F64.of_Z 4
  /\ remove_outliers (one_column "VarValue" [100; 3; 1; 4; 2]) "VarValue"
     = Ok (one_column "VarValue" [3; 1; 4; 2])
  /\ quantile (map (fun v => Some (F64.of_Z v)) [4; 1; 3; 2]) (1 # 4)
     = F64.of_Q (7 # 4)
  /\ quantile (map (fun v => Some (F64.of_Z v)) [4; 1; 3; 2]) (3 # 4)
     = F64.of_Q (13 # 4).
Proof.
  intros Hskip Hvalues.
  split; [| repeat split; vm_compute; reflexivity].
  unfold remove_outliers. rewrite Hskip.
  unfold getitem in *.
  destruct (index_of column (columns df)) as [i|] eqn:Hi; [| discriminate].
  simpl in Hvalues |- *. rewrite Hvalues. simpl.
  apply float_values_ok in Hvalues.
  exists i, (sort_f (omap id values)). eexists. cbv zeta.
  split; [reflexivity |].
  split; [apply sort_f_perm |].
  split; [apply sort_f_sorted; rewrite Hvalues; apply num_of_numbers |].
  split.
  { intros Hn.
    destruct (interpolate_quarters (sort_f (omap id values)) 1 Hn) as
      (lo1 & hi1 & H1 & H2 & H3); [lia |].
    destruct (interpolate_quarters (sort_f (omap id values)) 3 Hn) as
      (lo3 & hi3 & H4 & H5 & H6); [lia |].
    rewrite Z.mul_1_r in H1, H2, H3.
    exists lo1, hi1, lo3, hi3. repeat split; assumption. }
  split; [reflexivity |].
  intros row. apply within_iff.
Qed.

Lemma remove_outliers_keeps_rows_within_fences_witness :
  let df := one_column "VarValue" [100; 3; 1; 4; 2] in
  let values := map (fun v => Some (F64.of_Z v)) [100; 3; 1; 4; 2] in
  exists i sorted keep,
    let Q1 := interpolate sorted (1 # 4) in
    let Q3 := interpolate sorted (3 # 4) in
    let IQR := F64.sub Q3 Q1 in
    let lower_bound := F64.sub Q1 (F64.mul (F64.of_Q (3 # 2)) IQR) in
    let upper_bound := F64.add Q3 (F64.mul (F64.of_Q (3 # 2)) IQR) in
    index_of "VarValue" (columns df) = Some i
    /\ Permutation (omap id values) sorted
    /\ Sorted le_f sorted
    /\ remove_outliers df "VarValue"
       = Ok (mk_df (columns df) (List.filter keep (rows df)))
    /\ forall row,
         keep row = true <->
         exists v, get_cell i row = CNum v
                   /\ le_f lower_bound v /\ le_f v upper_bound.
Proof.
  destruct (proj1 (remove_outliers_keeps_rows_within_fences
                     (one_column "VarValue" [100; 3; 1; 4; 2]) "VarValue"
                     (map (fun v => Some (F64.of_Z v)) [100; 3; 1; 4; 2])
                     eq_refl eq_refl))
    as (i & sorted & keep & Hi & Hperm & Hsorted & _ & Hro & Hkeep).
  exists i, sorted, keep. repeat split; try assumption; apply Hkeep.
Defined.

(** The fences are floats, computed as the code computes them: of
    0.1, 0.1, 0.4, 0.7, 1.6 the upper fence 0.7 + 1.5 (0.7 - 0.1) is the
    float below 1.6, and 1.6 is removed; of 0, 1, 2, 2^53,
    22517998136852480 the upper fence rounds to the last value, which
    stays. *)
Lemma remove_outliers_fences_are_floats :
  remove_outliers
    (mk_df ["VarValue"]
       (map (fun q => [CNum (F64.of_Q q)]) [1 # 10; 1 # 10; 4 # 10; 7 # 10; 16 # 10]%Q))
    "VarValue"
  = Ok (mk_df ["VarValue"]
          (map (fun q => [CNum (F64.of_Q q)]) [1 # 10; 1 # 10; 4 # 10; 7 # 10]%Q))
  /\ remove_outliers
       (one_column "VarValue" [0; 1; 2; 2 ^ 53; 22517998136852480]) "VarValue"
     = Ok (one_column "VarValue" [0; 1; 2; 2 ^ 53; 22517998136852480]).
Proof. split; vm_compute; reflexivity. Qed.

(** ** Resampling *)

Section Resampling.

Local Open Scope list_scope.


(** A value that is there stays; a missing one takes the value before it. *)
Lemma ffill_lookup (prev : option F64.float) (l : list (option F64.float)) (k : nat) :
  ffill prev l !! k =
  match l !! k with
  | None => None
  | Some (Some x) => Some (Some x)
  | Some None =>
      Some (match k with
            | O => prev
            | S k' => default None (ffill prev l !! k')
            end)
  end.
Proof.
  revert prev k. induction l as [|x l IH]; intros prev [|k]; simpl;
    try reflexivity.
  - now destruct x.
  - change ((x :: l) !! S k) with (l !! k).
    change ((match x with Some _ => x | None => prev end
             :: ffill match x with Some _ => x | None => prev end l) !! S k)
      with (ffill match x with Some _ => x | None => prev end l !! k).
    rewrite IH. destruct (l !! k) as [[y|]|]; try reflexivity.
    destruct k; reflexivity.
Qed.

Lemma ffill_length (prev : option F64.float) (l : list (option F64.float)) :
  length (ffill prev l) = length l.
Proof.
  revert prev. induction l as [|x l IH]; intros prev; simpl; [reflexivity |].
  now rewrite IH.
Qed.














(** The rows of the resampled table, one by one. *)
Lemma resample_ffill_lookup (r0 : reading) (rs : list reading) (k : nat) :
  let readings := r0 :: rs in
  let buckets := map (fun r : reading => bucket_of (r.1.1)) readings in
  let first := fold_right Z.min (bucket_of (r0.1.1)) (tail buckets) in
  let last := fold_right Z.max (bucket_of (r0.1.1)) (tail buckets) in
  let value_at b :=
    mean (map (fun r : reading => r.1.2)
              (List.filter (in_bucket b) (sort_readings readings))) in
  let elapsed_at b :=
    mean (map (fun r : reading => r.2)
              (List.filter (in_bucket b) (sort_readings readings))) in
  let values := map value_at (seqZ first (last - first + 1)) in
  let elapsed := map elapsed_at (seqZ first (last - first + 1)) in
  resample_ffill readings !! k =
  if decide (Z.of_nat k < last - first + 1)
  then Some ((first + Z.of_nat k) * 60,
             default None (ffill None values !! k),
             default None (ffill None elapsed !! k))
  else None.
Proof.
  intros readings buckets first last value_at elapsed_at values elapsed.
  assert (Hrm : resample_mean readings
               = map (fun b => (b, value_at b, elapsed_at b))
                     (seqZ first (last - first + 1))) by reflexivity.
  unfold resample_ffill. rewrite Hrm, !map_map. cbn [fst snd].
  fold values. fold elapsed.
  rewrite (map_ext (fun x : Z => x) id), map_id by reflexivity.
  assert (Hlen : forall (f : Z -> option F64.float),
             length (ffill None (map f (seqZ first (last - first + 1))))
             = Z.to_nat (last - first + 1)).
  { intros f. now rewrite ffill_length, length_map, length_seqZ. }
  destruct (decide (Z.of_nat k < last - first + 1)) as [Hk|Hk].
  - assert (Hz : forall (f : Z -> option F64.float),
               is_Some (ffill None (map f (seqZ first (last - first + 1))) !! k)).
    { intros f. apply lookup_lt_is_Some. rewrite Hlen. lia. }
    destruct (Hz value_at) as [v Hv]. destruct (Hz elapsed_at) as [e He].
    fold values in Hv. fold elapsed in He.
    assert (Hzip : zip (ffill None values) (ffill None elapsed) !! k = Some (v, e)).
    { rewrite lookup_zip_with, Hv, He. reflexivity. }
    rewrite lookup_zip_with, lookup_seqZ_lt by assumption. simpl.
    change (map (fun x : Z => value_at x) (seqZ first (last - first + 1)))
      with values.
    change (map (fun x : Z => elapsed_at x) (seqZ first (last - first + 1)))
      with elapsed.
    rewrite Hzip, Hv, He. reflexivity.
  - rewrite lookup_zip_with, lookup_seqZ_ge by lia. reflexivity.
Qed.

End Resampling.

(** ** Tables *)

Section Tables.

Local Open Scope list_scope.















End Tables.

Section Loader.

Local Open Scope list_scope.

Lemma elapsed_minutes_ok (col el : list cell) (t0 : Z) :
  min_time col = Some t0 ->
  elapsed_minutes col = Ok el ->
  el = map (minutes_since t0) col.
Proof.
  unfold elapsed_minutes. intros ->. cbv iota beta.
  set (t1 := t0). clearbody t1.
  revert el. induction col as [|c col IH]; simpl; intros el H.
  - now inversion H.
  - unfold minutes_since at 1.
    destruct (time_of c) as [t|]; simpl in H |- *.
    + destruct ((t - t1) * 1000000000 <=? 2 ^ 63 - 1); simpl in H; [| discriminate].
      destruct (sub_min t1 col) as [ds|]; simpl in H |- *; [| discriminate].
      inversion H. f_equal. now apply IH.
    + destruct (sub_min t1 col) as [ds|]; simpl in H |- *; [| discriminate].
      inversion H. f_equal. now apply IH.
Qed.






End Loader.



(** C1.  The variable [AO Values_10R001] is on the skip list, yet the
    loader filters its series: [update_graph] gives [remove_outliers] the
    column name [VarValue], which is on no skip list, so the test on the
    skip list never holds there.  Of the values 1, 2, 3, 4, 100 the value
    100 is lost. *)
Theorem skip_list_variable_is_filtered :
  mem_str "AO Values_10R001" skip_variables = true
  /\ mem_str "VarValue" skip_variables = false
  /\ load_variable
       {[ "B1_AO Values_10R001.csv" :=
            merged_file [("01-01-2024 00:00:00", 1); ("01-01-2024 00:01:00", 2);
                         ("01-01-2024 00:02:00", 3); ("01-01-2024 00:03:00", 4);
                         ("01-01-2024 00:04:00", 100)] ]}
       "B1_AO Values_10R001"
     = Ok (map (fun r => mk_row (Some (1704067200 + 60 * r.1))
                                (Some (F64.of_Z r.2)) (Some (F64.of_Z r.1))
                                "AO Values_10R001")
               [(0, 1); (1, 2); (2, 3); (3, 4)]).
Proof. repeat split; vm_compute; reflexivity. Qed.

(** ** Plot assembler *)

Section Axes.

Local Open Scope list_scope.

Lemma dict_get_set {V} (k k' : string) (v : V) (d : dict V) :
  dict_get k' (dict_set k v d) = if String.eqb k k' then Some v else dict_get k' d.
Proof.
  induction d as [|[k0 v0] d IH]; simpl.
  - reflexivity.
  - destruct (String.eqb_spec k0 k) as [->|Hne]; simpl.
    + destruct (String.eqb_spec k k'); reflexivity.
    + rewrite IH.
      destruct (String.eqb_spec k0 k') as [->|]; [| reflexivity].
      destruct (String.eqb_spec k k'); [congruence | reflexivity].
Qed.

Lemma dict_set_fresh {V} (k : string) (v : V) (d : dict V) :
  dict_get k d = None -> dict_set k v d = d ++ [(k, v)].
Proof.
  induction d as [|[k0 v0] d IH]; simpl; [reflexivity |].
  destruct (String.eqb k0 k); [discriminate |].
  intros H. now rewrite IH.
Qed.

Variable variable_unit_map : dict string.
Variables new_variables manual_variables : list string.

Let unit_of (g : string) : string := dict_get_default g variable_unit_map "Value".
Let step := plot_group variable_unit_map new_variables manual_variables.


Lemma plot_group_step (u0 : string) (yaxes_used : dict Z) (fig : figure)
    (g : string) :
  slots_ok u0 yaxes_used ->
  slots_ok u0 (step (yaxes_used, fig) g).1
  /\ map secondary_y (traces (step (yaxes_used, fig) g).2)
     = map secondary_y (traces fig) ++ [negb (String.eqb (unit_of g) u0)]
  /\ is_Some (dict_get (unit_of g) (step (yaxes_used, fig) g).1)
  /\ (forall u, is_Some (dict_get u yaxes_used) ->
                is_Some (dict_get u (step (yaxes_used, fig) g).1))
  /\ (yaxis_title fig = Some u0 ->
      yaxis_title (step (yaxes_used, fig) g).2 = Some u0).
Proof.
  intros (H1 & Hother & Hlen).
  unfold step, plot_group. fold (unit_of g).
  set (d' := match dict_get (unit_of g) yaxes_used with
             | Some _ => yaxes_used
             | None => dict_set (unit_of g) (Z.of_nat (length yaxes_used) + 1) yaxes_used
             end).
  cbn [fst snd].
  assert (Hd' : slots_ok u0 d' /\ is_Some (dict_get (unit_of g) d')
                /\ (forall u, is_Some (dict_get u yaxes_used) -> is_Some (dict_get u d'))).
  { subst d'. destruct (dict_get (unit_of g) yaxes_used) as [n|] eqn:Hg.
    - split; [now repeat split |]. split; [rewrite Hg; eauto | auto].
    - assert (Hne : unit_of g <> u0) by (intros E; rewrite E in Hg; congruence).
      split; [repeat split |].
      + rewrite dict_get_set.
        destruct (String.eqb_spec (unit_of g) u0); [contradiction | assumption].
      + intros u n. rewrite dict_get_set.
        destruct (String.eqb_spec (unit_of g) u).
        * intros E _. inversion E. lia.
        * apply Hother.
      + rewrite dict_set_fresh by assumption. rewrite length_app. simpl. lia.
      + split; [rewrite dict_get_set, String.eqb_refl; eauto |].
        intros u Hu. rewrite dict_get_set.
        destruct (String.eqb (unit_of g) u); [eauto | assumption]. }
  destruct Hd' as ((H1' & Hother' & Hlen') & Hsome & Hkeep).
  split; [now repeat split |].
  assert (Hslot : (1 <? dict_get_default (unit_of g) d' 0)
                  = negb (String.eqb (unit_of g) u0)).
  { unfold dict_get_default.
    destruct (String.eqb_spec (unit_of g) u0) as [E|Hne].
    - rewrite E, H1'. reflexivity.
    - destruct Hsome as [n Hn]. rewrite Hn. simpl.
      apply Z.ltb_lt. now apply (Hother' (unit_of g)). }
  split.
  { unfold update_yaxes, add_trace.
    destruct (1 <? dict_get_default (unit_of g) d' 0) eqn:E; simpl;
      rewrite map_app; simpl; now rewrite <- Hslot. }
  split; [assumption |]. split; [assumption |].
  intros Hy. unfold update_yaxes, add_trace. rewrite Hslot.
  destruct (String.eqb_spec (unit_of g) u0) as [E|Hne]; simpl; congruence.
Qed.

Lemma plot_groups_fold (u0 : string) (groups : list string)
    (yaxes_used : dict Z) (fig : figure) :
  slots_ok u0 yaxes_used ->
  yaxis_title fig = Some u0 ->
  let result := fold_left step groups (yaxes_used, fig) in
  slots_ok u0 result.1
  /\ map secondary_y (traces result.2)
     = map secondary_y (traces fig)
       ++ map (fun g => negb (String.eqb (unit_of g) u0)) groups
  /\ (forall g, In g groups -> is_Some (dict_get (unit_of g) result.1))
  /\ (forall u, is_Some (dict_get u yaxes_used) -> is_Some (dict_get u result.1))
  /\ yaxis_title result.2 = Some u0.
Proof.
  revert yaxes_used fig. induction groups as [|g groups IH]; intros d fig Hok Hy.
  - simpl. rewrite app_nil_r. repeat split; try apply Hok; auto.
    intros g [].
  - cbn [fold_left]. cbv zeta.
    destruct (step (d, fig) g) as [d1 fig1] eqn:Hstep.
    destruct (plot_group_step u0 d fig g Hok) as (Hok1 & Htr & Hg & Hkeep & Hy1).
    rewrite Hstep in *. cbn [fst snd] in *.
    destruct (IH d1 fig1 Hok1 (Hy1 Hy)) as (Hok2 & Htr2 & Hin2 & Hkeep2 & Hy2).
    split; [assumption |]. split.
    { rewrite Htr2, Htr, <- app_assoc. reflexivity. }
    split.
    { intros g' [<-|Hin]; [now apply Hkeep2 | now apply Hin2]. }
    split; [intros u Hu; now apply Hkeep2, Hkeep | assumption].
Qed.

End Axes.

(** C7.  Whatever the units of the plotted variables are, the unit of the
    first group has slot 1 in [yaxes_used] and its traces go to the
    primary Y axis, which carries its title; every other unit has a slot
    above 1 and its traces go to the secondary Y axis.  A trace is on one
    of these two axes: there is no third. *)
Theorem axes_primary_and_one_secondary
    (variable_unit_map : dict string) (new_variables manual_variables : list string)
    (g0 : string) (rest : list string) :
  let unit_of g := dict_get_default g variable_unit_map "Value" in
  let result :=
    assemble_plot variable_unit_map new_variables manual_variables (g0 :: rest) in
  map secondary_y (traces result.2)
  = map (fun g => negb (String.eqb (unit_of g) (unit_of g0))) (g0 :: rest)
  /\ dict_get (unit_of g0) result.1 = Some 1
  /\ (forall g, In g (g0 :: rest) -> unit_of g <> unit_of g0 ->
        exists n, dict_get (unit_of g) result.1 = Some n /\ 1 < n)
  /\ yaxis_title result.2 = Some (unit_of g0).
Proof.
  intros unit_of result. subst result. unfold assemble_plot.
  cbn [fold_left].
  set (first := plot_group variable_unit_map new_variables manual_variables
                           ([], empty_figure) g0).
  assert (Hfirst : first = ([(unit_of g0, 1)],
                            mk_figure [mk_trace (kind (hd (mk_trace Bar EmptyString false)
                                                       (traces first.2)))
                                                (name (hd (mk_trace Bar EmptyString false)
                                                       (traces first.2)))
                                                false]
                                      (Some (unit_of g0)) None)).
  { subst first. unfold plot_group. fold (unit_of g0). simpl.
    unfold dict_get_default. simpl. rewrite String.eqb_refl. reflexivity. }
  assert (Hok : slots_ok (unit_of g0) first.1).
  { rewrite Hfirst. unfold slots_ok. simpl. rewrite String.eqb_refl.
    split; [reflexivity |]. split; [| lia].
    intros u n. destruct (String.eqb_spec (unit_of g0) u); [congruence | discriminate]. }
  assert (Hy : yaxis_title first.2 = Some (unit_of g0)) by now rewrite Hfirst.
  destruct first as [d1 fig1] eqn:E. cbn [fst snd] in *.
  destruct (plot_groups_fold variable_unit_map new_variables manual_variables
              (unit_of g0) rest d1 fig1 Hok Hy) as (Hok' & Htr & Hin & Hkeep & Hy').
  destruct Hok' as (H1 & Hother & _).
  split.
  { rewrite Htr. inversion Hfirst as [[Hd Hf]].
    cbn [map]. rewrite String.eqb_refl. rewrite Hf at 1. reflexivity. }
  split; [assumption |]. split; [| assumption].
  intros g [<-|Hg] Hne; [congruence |].
  destruct (Hin g Hg) as [n Hn]. exists n. split; [assumption |].
  now apply (Hother (unit_of g)).
Qed.

(** ** Batch merger *)

Section Merger.

Local Open Scope list_scope.

Variable vars : list string.
Hypothesis vars_nodup : NoDup vars.

Lemma keyed_ext (A B : string -> DataFrame) (l : list string) :
  (forall v, In v l -> A v = B v) -> keyed A l = keyed B l.
Proof.
  intros H. apply map_ext_in. intros v Hv. now rewrite (H v Hv).
Qed.

Lemma dict_get_keyed (A : string -> DataFrame) (l : list string) (v : string) :
  In v l -> dict_get v (keyed A l) = Some (A v).
Proof.
  induction l as [|v0 l IH]; simpl; [intros [] |].
  destruct (String.eqb_spec v0 v) as [->|Hne]; [reflexivity |].
  intros [E|Hin]; [contradiction | now apply IH].
Qed.

Lemma dict_set_keyed (A : string -> DataFrame) (l : list string) (v : string)
    (x : DataFrame) :
  NoDup l -> In v l ->
  dict_set v x (keyed A l) = keyed (fun u => if String.eqb u v then x else A u) l.
Proof.
  induction l as [|v0 l IH]; simpl; [intros _ [] |].
  intros Hnd Hin. apply NoDup_cons in Hnd. destruct Hnd as [Hv0 Hnd].
  destruct (String.eqb_spec v0 v) as [->|Hne].
  - f_equal. apply keyed_ext. intros u Hu.
    destruct (String.eqb_spec u v) as [->|]; [| reflexivity].
    exfalso. apply Hv0. now apply list_elem_of_In.
  - f_equal. destruct Hin as [E|Hin]; [contradiction | now apply IH].
Qed.

Lemma set_merged_twice (m m' : dict DataFrame) (st : state) :
  set_merged m (set_merged m' st) = set_merged m st.
Proof. reflexivity. Qed.

Lemma for_each_cons {A} (x : A) (l : list A) (body : A -> M unit) (st : state) :
  for_each (x :: l) body st =
  match body x st with
  | (st', Ok _) => for_each l body st'
  | (st', Raise e) => (st', Raise e)
  end.
Proof. reflexivity. Qed.

Lemma entries_cons (df : DataFrame) (v : string) (vs : list string) :
  entries df (v :: vs) =
  if df_empty (rows_of_variable v df) then entries df vs
  else (v, rows_of_variable v df) :: entries df vs.
Proof.
  unfold entries. cbn [map List.filter snd].
  now destruct (df_empty (rows_of_variable v df)).
Qed.

Lemma extract_variables_ok (df : DataFrame) (i : nat) (vs : list string)
    (d : dict DataFrame) :
  index_of "VarName" (columns df) = Some i ->
  NoDup vs ->
  (forall v, In v vs -> dict_get v d = None) ->
  extract_variables df vs d = Ok (d ++ entries df vs).
Proof.
  intros Hi. revert d. induction vs as [|v vs IH]; intros d Hnd Hfresh.
  - simpl. now rewrite app_nil_r.
  - apply NoDup_cons in Hnd. destruct Hnd as [Hv Hnd].
    cbn [extract_variables]. rewrite Hi, entries_cons.
    assert (Hr : rows_of_variable v df
                 = select (fun row => cell_is v (get_cell i row)) df)
      by (unfold rows_of_variable; now rewrite Hi).
    rewrite <- Hr.
    destruct (df_empty (rows_of_variable v df)) eqn:He.
    + apply IH; [assumption | intros u Hu; apply Hfresh; now right].
    + rewrite IH; [| assumption |].
      * rewrite dict_set_fresh by (apply Hfresh; now left).
        rewrite <- app_assoc. reflexivity.
      * intros u Hu. rewrite dict_get_set.
        destruct (String.eqb_spec v u) as [->|].
        -- exfalso. apply Hv. now apply list_elem_of_In.
        -- apply Hfresh. now right.
Qed.

(** The tables of one file join their accumulators. *)
Lemma merge_entries (df : DataFrame) (vs : list string)
    (A : string -> DataFrame) (st : state) :
  NoDup vs -> incl vs vars ->
  for_each (entries df vs) merge_one (set_merged (keyed A vars) st) =
  (set_merged
     (keyed (fun u => if mem_str u vs && negb (df_empty (rows_of_variable u df))
                      then concat (A u) (rows_of_variable u df)
                      else A u) vars) st,
   Ok tt).
Proof.
  revert A. induction vs as [|v vs IH]; intros A Hnd Hincl.
  - reflexivity.
  - apply NoDup_cons in Hnd. destruct Hnd as [Hv Hnd].
    assert (Hincl' : incl vs vars) by (intros u Hu; apply Hincl; now right).
    assert (Hvin : In v vars) by (apply Hincl; now left).
    assert (Hmem : mem_str v vs = false).
    { unfold mem_str. apply not_true_is_false. intros E.
      apply existsb_exists in E. destruct E as (u & Hu & E).
      apply String.eqb_eq in E. subst u. apply Hv. now apply list_elem_of_In. }
    rewrite entries_cons.
    destruct (df_empty (rows_of_variable v df)) eqn:He.
    + rewrite IH by assumption. f_equal. f_equal. apply keyed_ext. intros u _.
      unfold mem_str. cbn [existsb].
      destruct (String.eqb_spec u v) as [->|]; [| reflexivity].
      fold (mem_str v vs). rewrite Hmem, He. reflexivity.
    + rewrite for_each_cons. unfold merge_one at 1. rewrite He.
      unfold bind, get, modify, raise. cbn [merged_dataframes set_merged].
      rewrite (dict_get_keyed A vars v Hvin).
      rewrite (dict_set_keyed A vars v _ vars_nodup Hvin).
      rewrite set_merged_twice, IH by assumption. f_equal. f_equal. apply keyed_ext. intros u _.
      unfold mem_str. cbn [existsb].
      destruct (String.eqb_spec u v) as [->|Hne].
      * fold (mem_str v vs). rewrite Hmem, He. reflexivity.
      * reflexivity.
Qed.

Lemma mem_str_In (u : string) (l : list string) : mem_str u l = true <-> In u l.
Proof.
  unfold mem_str. rewrite existsb_exists. split.
  - intros (x & Hx & E). apply String.eqb_eq in E. now subst.
  - intros H. exists u. split; [assumption | apply String.eqb_refl].
Qed.

Lemma has_column_index (name : string) (df : DataFrame) :
  has_column name df = true <-> exists i, index_of name (columns df) = Some i.
Proof.
  unfold has_column. destruct (index_of name (columns df)) as [i|].
  - split; eauto.
  - split; [discriminate | intros [i Hi]; discriminate].
Qed.

(** One readable file: every accumulator takes the rows of its variable. *)
Lemma merge_file_ok (file : string) (df : DataFrame) (A : string -> DataFrame)
    (st : state) :
  primary_bucket st !! file = Some df ->
  has_column "VarName" df = true ->
  merge_file vars file (set_merged (keyed A vars) st) =
  (set_merged
     (keyed (fun u => if df_empty (rows_of_variable u df) then A u
                      else concat (A u) (rows_of_variable u df)) vars) st,
   Ok tt).
Proof.
  intros Hdf Hcol. apply has_column_index in Hcol. destruct Hcol as [i Hi].
  unfold merge_file, bind, get, lift, process_csv_file.
  cbn [primary_bucket set_merged]. rewrite Hdf.
  rewrite (extract_variables_ok df i vars [] Hi vars_nodup) by reflexivity.
  cbn [app].
  change (mk_state (primary_bucket st) (output_bucket st) (keyed A vars)
                   (filename_prefixes st) (uploads st))
    with (set_merged (keyed A vars) st).
  rewrite merge_entries by (assumption || apply incl_refl).
  f_equal. f_equal. apply keyed_ext. intros u Hu.
  apply mem_str_In in Hu. rewrite Hu.
  now destruct (df_empty (rows_of_variable u df)).
Qed.

(** One file that cannot be read: the exception leaves the loop, the state
    is as it was. *)
Lemma merge_file_raises (file : string) (st : state) :
  readable (primary_bucket st) file = false -> vars <> [] ->
  exists e, merge_file vars file st = (st, Raise e).
Proof.
  intros Hr Hne. unfold readable in Hr.
  unfold merge_file, bind, get, lift, process_csv_file.
  destruct (primary_bucket st !! file) as [df|]; [| eauto].
  unfold has_column in Hr.
  destruct (index_of "VarName" (columns df)) eqn:Hi; [discriminate |].
  destruct vars as [|v vs]; [contradiction |].
  cbn [extract_variables]. rewrite Hi. eauto.
Qed.

Lemma accumulate_cons (bucket : gmap string DataFrame) (file : string)
    (files : list string) (u : string) (acc : DataFrame) :
  accumulate bucket (file :: files) u acc =
  accumulate bucket files u
    (match bucket !! file with
     | Some df =>
         if df_empty (rows_of_variable u df) then acc
         else concat acc (rows_of_variable u df)
     | None => acc
     end).
Proof. reflexivity. Qed.

(** The loop over the selected files returns only when every file can be
    read, and then every accumulator holds the rows of its variable, file
    after file. *)
Lemma merge_files_inv (files : list string) (A : string -> DataFrame)
    (st st' : state) :
  vars <> [] ->
  for_each files (merge_file vars) (set_merged (keyed A vars) st) = (st', Ok tt) ->
  Forall (fun f => readable (primary_bucket st) f = true) files
  /\ st' = set_merged
             (keyed (fun u => accumulate (primary_bucket st) files u (A u)) vars) st.
Proof.
  intros Hne. revert A. induction files as [|file files IH]; intros A.
  - cbn [for_each]. unfold ret. intros E. inversion E. split; [constructor | reflexivity].
  - rewrite for_each_cons.
    destruct (readable (primary_bucket st) file) eqn:Hr.
    + pose proof Hr as Hr'. unfold readable in Hr'.
      destruct (primary_bucket st !! file) as [df|] eqn:Hdf; [| discriminate].
      rewrite (merge_file_ok file df A st Hdf Hr').
      intros E. apply IH in E. destruct E as [Hall ->].
      split; [now constructor |].
      f_equal. apply keyed_ext. intros u _.
      rewrite accumulate_cons, Hdf. reflexivity.
    + destruct (merge_file_raises file (set_merged (keyed A vars) st) Hr Hne)
        as [e He].
      rewrite He. discriminate.
Qed.

Lemma merge_files_ok (files : list string) (A : string -> DataFrame) (st : state) :
  Forall (fun f => readable (primary_bucket st) f = true) files ->
  for_each files (merge_file vars) (set_merged (keyed A vars) st) =
  (set_merged
     (keyed (fun u => accumulate (primary_bucket st) files u (A u)) vars) st,
   Ok tt).
Proof.
  revert A. induction files as [|file files IH]; intros A Hall.
  - reflexivity.
  - inversion Hall as [|? ? Hr Hall']; subst.
    rewrite for_each_cons. pose proof Hr as Hr'. unfold readable in Hr'.
    destruct (primary_bucket st !! file) as [df|] eqn:Hdf; [| discriminate].
    rewrite (merge_file_ok file df A st Hdf Hr'), IH by assumption.
    f_equal. f_equal. apply keyed_ext. intros u _.
    rewrite accumulate_cons, Hdf. reflexivity.
Qed.

(** The loop stops at the first file that cannot be read; the buckets are
    as they were. *)
Lemma merge_files_raises (files : list string) (A : string -> DataFrame)
    (st : state) :
  vars <> [] ->
  Exists (fun f => readable (primary_bucket st) f = false) files ->
  exists m e,
    for_each files (merge_file vars) (set_merged (keyed A vars) st)
    = (set_merged m st, Raise e).
Proof.
  intros Hne. revert A. induction files as [|file files IH]; intros A Hex.
  - inversion Hex.
  - rewrite for_each_cons.
    destruct (readable (primary_bucket st) file) eqn:Hr.
    + pose proof Hr as Hr'. unfold readable in Hr'.
      destruct (primary_bucket st !! file) as [df|] eqn:Hdf; [| discriminate].
      rewrite (merge_file_ok file df A st Hdf Hr').
      apply IH. inversion Hex; subst; [congruence | assumption].
    + destruct (merge_file_raises file (set_merged (keyed A vars) st) Hr Hne)
        as [e He].
      rewrite He. eauto.
Qed.

End Merger.

Section Saver.

Local Open Scope list_scope.

Variable filename_prefix : string.

Let file_of (e : string * DataFrame) : string := output_file filename_prefix e.1.
Let nonempty (e : string * DataFrame) : bool := negb (df_empty e.2).

Lemma save_all_spec (l : dict DataFrame) (saved_files : list string) (st : state) :
  save_all filename_prefix l saved_files st =
  (uploaded filename_prefix (List.filter nonempty l) st,
   Ok (saved_files ++ map file_of (List.filter nonempty l))).
Proof.
  revert saved_files st. induction l as [|[v df] l IH]; intros saved st.
  - cbn. unfold ret. now rewrite app_nil_r.
  - assert (Hf : List.filter nonempty ((v, df) :: l)
                 = if df_empty df then List.filter nonempty l
                   else (v, df) :: List.filter nonempty l).
    { cbn [List.filter]. unfold nonempty at 1. cbn [snd].
      now destruct (df_empty df). }
    rewrite Hf. cbn [save_all]. destruct (df_empty df).
    + apply IH.
    + unfold bind, modify. rewrite IH. cbn [map]. unfold file_of at 2.
      cbn [fst]. rewrite <- app_assoc. reflexivity.
Qed.

Lemma uploaded_uploads (l : dict DataFrame) (st : state) :
  uploads (uploaded filename_prefix l st) = uploads st ++ map file_of l.
Proof.
  revert st. induction l as [|e l IH]; intros st; cbn.
  - now rewrite app_nil_r.
  - unfold uploaded in IH. rewrite IH. cbn. now rewrite <- app_assoc.
Qed.

Lemma uploaded_rest (l : dict DataFrame) (st : state) :
  primary_bucket (uploaded filename_prefix l st) = primary_bucket st
  /\ merged_dataframes (uploaded filename_prefix l st) = merged_dataframes st
  /\ filename_prefixes (uploaded filename_prefix l st) = filename_prefixes st.
Proof.
  revert st. induction l as [|e l IH]; intros st; cbn; [now repeat split |].
  unfold uploaded in IH. destruct (IH (upload (file_of e) e.2 st)) as (H1 & H2 & H3).
  unfold file_of in *. rewrite H1, H2, H3. now repeat split.
Qed.

(** No write for a name: the blob of that name is as it was. *)
Lemma uploaded_other (l : dict DataFrame) (st : state) (blob_name : string) :
  ~ In blob_name (map file_of l) ->
  output_bucket (uploaded filename_prefix l st) !! blob_name
  = output_bucket st !! blob_name.
Proof.
  revert st. induction l as [|e l IH]; intros st Hn; cbn; [reflexivity |].
  unfold uploaded in IH. rewrite IH by (intros H; apply Hn; now right).
  cbn. apply lookup_insert_ne. intros E. apply Hn. now left.
Qed.

(** A written name holds the table written to it. *)
Lemma uploaded_written (l : dict DataFrame) (st : state) (e : string * DataFrame) :
  NoDup (map file_of l) -> In e l ->
  output_bucket (uploaded filename_prefix l st) !! file_of e = Some e.2.
Proof.
  revert st. induction l as [|e0 l IH]; intros st Hnd Hin; [destruct Hin |].
  cbn [map] in Hnd. apply NoDup_cons in Hnd. destruct Hnd as [Hfresh Hnd].
  cbn. destruct Hin as [->|Hin].
  - change (fold_left _ l ?s) with (uploaded filename_prefix l s).
    rewrite uploaded_other by (intros H; apply Hfresh; now apply list_elem_of_In).
    cbn. apply lookup_insert_eq.
  - now apply IH.
Qed.

End Saver.

Lemma variable_names_nodup : NoDup variable_names.
Proof. apply (bool_decide_unpack _). vm_compute. exact I. Qed.

Lemma sanitized_names_nodup : NoDup (map sanitize_filename variable_names).
Proof. apply (bool_decide_unpack _). vm_compute. exact I. Qed.

Lemma output_file_inj (filename_prefix a b : string) :
  output_file filename_prefix a = output_file filename_prefix b ->
  sanitize_filename a = sanitize_filename b.
Proof.
  unfold output_file. intros E. apply (f_equal PyStr.chars) in E.
  rewrite !chars_app in E.
  apply app_inv_head in E. apply app_inv_head in E. apply app_inv_tail in E.
  now apply chars_inj.
Qed.

Lemma NoDup_map_inj {A B} (f : A -> B) (l : list A) (x y : A) :
  NoDup (map f l) -> In x l -> In y l -> f x = f y -> x = y.
Proof.
  induction l as [|a l IH]; cbn [map]; [intros _ [] |].
  intros Hnd. apply NoDup_cons in Hnd. destruct Hnd as [Ha Hnd].
  intros [->|Hx] [->|Hy] E; try reflexivity.
  - exfalso. apply Ha. rewrite E. apply list_elem_of_In. now apply in_map.
  - exfalso. apply Ha. rewrite <- E. apply list_elem_of_In. now apply in_map.
  - now apply IH.
Qed.

(** A table that grows by a table with rows has rows. *)
Lemma concat_not_empty (a b : DataFrame) :
  df_empty b = false -> df_empty (concat a b) = false.
Proof.
  unfold df_empty, concat. cbn [rows columns].
  destruct (rows b) as [|r rs] eqn:Hr; [discriminate |].
  destruct (columns b) as [|c cs] eqn:Hc; [discriminate |]. intros _.
  destruct (map (reindex (columns a) _) (rows a) ++ _)%list eqn:E.
  - apply app_eq_nil in E. destruct E as [_ E]. discriminate.
  - destruct (columns a) as [|c0 cs0]; [| reflexivity].
    reflexivity.
Qed.

(** An accumulator stays empty exactly when no file of the run has a row
    of its variable. *)
Lemma accumulate_empty (bucket : gmap string DataFrame) (files : list string)
    (var_name : string) :
  df_empty (accumulate bucket files var_name empty_frame) = true <->
  Forall (fun file => forall df, bucket !! file = Some df ->
                                 df_empty (rows_of_variable var_name df) = true)
         files.
Proof.
  assert (Hgrow : forall fs acc, df_empty acc = false ->
                    df_empty (accumulate bucket fs var_name acc) = false).
  { induction fs as [|f fs IH]; intros acc Hacc; [assumption |].
    rewrite accumulate_cons. apply IH.
    destruct (bucket !! f) as [df|]; [| assumption].
    destruct (df_empty (rows_of_variable var_name df)) eqn:E; [assumption |].
    now apply concat_not_empty. }
  induction files as [|f fs IH].
  - split; [constructor | reflexivity].
  - rewrite accumulate_cons.
    destruct (bucket !! f) as [df|] eqn:Hf.
    + destruct (df_empty (rows_of_variable var_name df)) eqn:E.
      * rewrite IH. split.
        -- intros H. constructor; [| assumption]. intros df' Hdf'. congruence.
        -- intros H. now inversion H.
      * split.
        -- intros H. rewrite Hgrow in H; [discriminate |].
           now apply concat_not_empty.
        -- intros H. inversion H as [|? ? Hhd _]; subst.
           rewrite (Hhd df Hf) in E. discriminate.
    + rewrite IH. split.
      * intros H. constructor; [intros df Hdf; congruence | assumption].
      * intros H. now inversion H.
Qed.

Lemma dict_from_variable_names :
  dict_from_keys variable_names empty_frame
  = keyed (fun _ => empty_frame) variable_names.
Proof. reflexivity. Qed.

Lemma variable_names_not_nil : variable_names <> [].
Proof. discriminate. Qed.

(** The list of variables stays folded in the proofs about runs. *)
Opaque variable_names.

(** The end of a run, from the accumulators on: the saves, the registry of
    prefixes and the returned values. *)
Lemma run_tail (vars : list string) (acc : string -> DataFrame) (p : string)
    (selected : list string) (st : state) :
  let written :=
    List.filter (fun e => negb (df_empty e.2)) (keyed acc vars) in
  let saved := uploaded p written (set_merged (keyed acc vars) st) in
  let final := if mem_str p (filename_prefixes st) then saved
               else add_prefix p saved in
  (merged <- get merged_dataframes ;;
   saved_files <- save_all p merged [] ;;
   known <- get filename_prefixes ;;
   (if mem_str p known then ret tt else modify (add_prefix p)) ;;;
   known <- get filename_prefixes ;;
   out <- get output_bucket ;;
   let all_prefixes :=
     sorted_set (known ++ extract_prefixes_from_saved_files out) in
   ret (SelectedFiles selected, Saved p (length saved_files), all_prefixes))%py
    (set_merged (keyed acc vars) st)
  = (final,
     Ok (SelectedFiles selected, Saved p (length written),
         sorted_set (filename_prefixes final
                     ++ extract_prefixes_from_saved_files (output_bucket final)))).
Proof.
  intros written saved final.
  unfold bind at 1. unfold get at 1. cbn [merged_dataframes set_merged].
  unfold bind at 1. rewrite save_all_spec. cbn [app].
  change (mk_state (primary_bucket st) (output_bucket st) (keyed acc vars)
                   (filename_prefixes st) (uploads st))
    with (set_merged (keyed acc vars) st).
  fold written. fold saved.
  destruct (uploaded_rest p written (set_merged (keyed acc vars) st))
    as (_ & _ & Hpre).
  fold saved in Hpre. cbn [filename_prefixes set_merged] in Hpre.
  unfold bind, get, modify, ret. rewrite Hpre. subst final.
  rewrite length_map.
  destruct (mem_str p (filename_prefixes st)); reflexivity.
Qed.

(** A run of the merger that reaches its end, step by step. *)
Lemma update_file_list_run (n_clicks : option Z)
    (start_date end_date filename_prefix : option string) (st st' : state)
    (selected : list string) (status : save_status) (options : list string) :
  update_file_list n_clicks start_date end_date filename_prefix st
  = (st', Ok (SelectedFiles selected, status, options)) ->
  exists p sd ed s e,
    filename_prefix = Some p /\ start_date = Some sd /\ end_date = Some ed
    /\ fromisoformat sd = Ok s /\ fromisoformat ed = Ok e
    /\ selected
       = filter_files_by_date (list_csv_files (primary_bucket st)) s e
    /\ Forall (fun f => readable (primary_bucket st) f = true) selected
    /\ let acc u := accumulate (primary_bucket st) selected u empty_frame in
       let written :=
         List.filter (fun e => negb (df_empty e.2)) (keyed acc variable_names) in
       let saved := uploaded p written (set_merged (keyed acc variable_names) st) in
       st' = (if mem_str p (filename_prefixes st) then saved else add_prefix p saved)
       /\ status = Saved p (length written).
Proof.
  unfold update_file_list.
  destruct start_date as [sd|], end_date as [ed|], filename_prefix as [p|];
    try (unfold bind, get, ret; intros H; inversion H; fail).
  destruct (truthy_int n_clicks && truthy_str (Some sd) && truthy_str (Some ed)
            && truthy_str (Some p));
    [| unfold bind, get, ret; intros H; inversion H; fail].
  destruct (fromisoformat sd) as [s|x] eqn:Hs; cbn [rbind];
    [| unfold ret; intros H; inversion H; fail].
  destruct (fromisoformat ed) as [e|x] eqn:He; cbn [rbind];
    [| unfold ret; intros H; inversion H; fail].
  unfold bind at 1. unfold get at 1.
  destruct (filter_files_by_date (list_csv_files (primary_bucket st)) s e)
    as [|f fs] eqn:Hsel; [unfold ret; intros H; inversion H; fail |].
  rewrite <- Hsel.
  unfold bind at 1. unfold modify at 1. rewrite dict_from_variable_names.
  unfold bind at 1.
  destruct (for_each _ (merge_file variable_names) _) as [st1 [[]|x]] eqn:Hloop;
    [| intros H; inversion H; fail].
  apply (merge_files_inv variable_names variable_names_nodup) in Hloop;
    [| apply variable_names_not_nil].
  destruct Hloop as [Hall ->].
  rewrite run_tail. intros H. injection H as H1 H2 H3 H4.
  exists p, sd, ed, s, e. subst selected status st'.
  repeat split; assumption || reflexivity.
Qed.

Section Run.

Local Open Scope list_scope.

Lemma filter_keyed (acc : string -> DataFrame) (l : list string) :
  List.filter (fun e => negb (df_empty e.2)) (keyed acc l)
  = keyed acc (List.filter (fun u => negb (df_empty (acc u))) l).
Proof.
  induction l as [|u l IH]; cbn; [reflexivity |].
  destruct (df_empty (acc u)); cbn; [assumption | now f_equal].
Qed.

Lemma map_file_keyed (p : string) (acc : string -> DataFrame) (l : list string) :
  map (fun e : string * DataFrame => output_file p e.1) (keyed acc l)
  = map (output_file p) l.
Proof. unfold keyed. rewrite map_map. reflexivity. Qed.

Lemma NoDup_map_filter {A B} (f : A -> B) (P : A -> bool) (l : list A) :
  NoDup (map f l) -> NoDup (map f (List.filter P l)).
Proof.
  induction l as [|a l IH]; cbn; [trivial |].
  intros Hnd. apply NoDup_cons in Hnd. destruct Hnd as [Ha Hnd].
  destruct (P a); cbn; [| now apply IH].
  apply NoDup_cons. split; [| now apply IH].
  intros Hin. apply Ha. apply list_elem_of_In. apply list_elem_of_In in Hin.
  apply in_map_iff in Hin. destruct Hin as (x & Hx & Hin).
  apply filter_In in Hin. apply in_map_iff. exists x. tauto.
Qed.

Lemma output_files_nodup (p : string) : NoDup (map (output_file p) variable_names).
Proof.
  pose proof sanitized_names_nodup as H.
  pose proof variable_names_nodup as H0.
  revert H H0. generalize variable_names. intros l.
  induction l as [|a l IH]; cbn; [constructor |].
  intros Hs Hl. apply NoDup_cons in Hs. destruct Hs as [Ha Hs].
  apply NoDup_cons in Hl. destruct Hl as [_ Hl].
  apply NoDup_cons. split; [| now apply IH].
  intros Hin. apply Ha. apply list_elem_of_In. apply list_elem_of_In in Hin.
  apply in_map_iff in Hin. destruct Hin as (x & Hx & Hin).
  apply output_file_inj in Hx. rewrite <- Hx. now apply in_map.
Qed.

(** The accumulators that a run finds in memory play no part in it. *)
Lemma update_file_list_reinit (n_clicks : option Z)
    (start_date end_date filename_prefix : option string)
    (m : dict DataFrame) (st : state) :
  update_file_list n_clicks start_date end_date filename_prefix (set_merged m st)
  = update_file_list n_clicks start_date end_date filename_prefix st
  \/ exists d options,
       update_file_list n_clicks start_date end_date filename_prefix st
       = (st, Ok (d, NoStatus, options)).
Proof.
  unfold update_file_list.
  destruct start_date as [sd|], end_date as [ed|], filename_prefix as [p|];
    try (right; eexists _, _; reflexivity).
  destruct (truthy_int n_clicks && truthy_str (Some sd) && truthy_str (Some ed)
            && truthy_str (Some p));
    [| right; eexists _, _; reflexivity].
  destruct (fromisoformat sd) as [s|x]; cbn [rbind];
    [| right; eexists _, _; reflexivity].
  destruct (fromisoformat ed) as [e|x]; cbn [rbind];
    [| right; eexists _, _; reflexivity].
  unfold bind, get, modify, ret. cbn [primary_bucket set_merged].
  destruct (filter_files_by_date (list_csv_files (primary_bucket st)) s e)
    as [|f fs]; [right; eexists _, _; reflexivity |].
  left. reflexivity.
Qed.

End Run.

(** C4.  In a run of the batch merger that reaches its end, the
    accumulators start from empty: they hold the rows of the selected
    files only, and the accumulators found in memory play no part.  The
    uploads of the run are the files of the variables whose accumulator
    has rows, in the order of [variable_names]; each holds its
    accumulator afterwards, whatever the blob held before.  A blob whose
    name is not among them is as it was: no file is written for a
    variable that has no row in the selected files. *)
Theorem merge_run_writes_nonempty_accumulators
    (n_clicks : option Z) (start_date end_date filename_prefix : option string)
    (st st' : state) (selected : list string) (status : save_status)
    (options : list string) :
  update_file_list n_clicks start_date end_date filename_prefix st
  = (st', Ok (SelectedFiles selected, status, options)) ->
  exists p,
    filename_prefix = Some p
    /\ let acc u := accumulate (primary_bucket st) selected u empty_frame in
       let written :=
         List.filter (fun u => negb (df_empty (acc u))) variable_names in
       merged_dataframes st' = keyed acc variable_names
       /\ (forall m,
             update_file_list n_clicks start_date end_date filename_prefix
                              (set_merged m st)
             = (st', Ok (SelectedFiles selected, status, options)))
       /\ uploads st' = (uploads st ++ map (output_file p) written)%list
       /\ status = Saved p (length written)
       /\ (forall u, In u written ->
             output_bucket st' !! output_file p u = Some (acc u))
       /\ (forall blob_name,
             ~ In blob_name (map (output_file p) written) ->
             output_bucket st' !! blob_name = output_bucket st !! blob_name)
       /\ (forall u, In u variable_names -> df_empty (acc u) = true ->
             output_bucket st' !! output_file p u
             = output_bucket st !! output_file p u)
       /\ (forall u,
             df_empty (acc u) = true <->
             Forall (fun file =>
                       forall df, primary_bucket st !! file = Some df ->
                                  df_empty (rows_of_variable u df) = true)
                    selected).
Proof.
  intros Hrun.
  destruct (update_file_list_run _ _ _ _ _ _ _ _ _ Hrun)
    as (p & sd & ed & s & e & -> & -> & -> & Hs & He & Hsel & Hall & Hst).
  cbv zeta in Hst. destruct Hst as [Hst' Hstatus].
  exists p. split; [reflexivity |]. intros acc written.
  rewrite filter_keyed in Hst', Hstatus. fold acc in Hst', Hstatus.
  fold written in Hst', Hstatus.
  set (saved := uploaded p (keyed acc written)
                         (set_merged (keyed acc variable_names) st)) in Hst'.
  assert (Hfields : output_bucket st' = output_bucket saved
                    /\ uploads st' = uploads saved
                    /\ merged_dataframes st' = merged_dataframes saved).
  { rewrite Hst'. now destruct (mem_str p (filename_prefixes st)). }
  destruct Hfields as (Hout & Hup & Hmerged).
  assert (Hfiles : map (fun e0 : string * DataFrame => output_file p e0.1)
                       (keyed acc written) = map (output_file p) written)
    by apply map_file_keyed.
  assert (Hnd : NoDup (map (output_file p) written))
    by (apply NoDup_map_filter, output_files_nodup).
  assert (Hother : forall blob_name,
             ~ In blob_name (map (output_file p) written) ->
             output_bucket st' !! blob_name = output_bucket st !! blob_name).
  { intros blob_name Hn. rewrite Hout. unfold saved.
    rewrite uploaded_other by now rewrite Hfiles. reflexivity. }
  split.
  { rewrite Hmerged. unfold saved.
    now destruct (uploaded_rest p (keyed acc written)
                    (set_merged (keyed acc variable_names) st)) as (_ & -> & _). }
  split.
  { intros m.
    destruct (update_file_list_reinit n_clicks (Some sd) (Some ed) (Some p) m st)
      as [->|(d & o & E)]; [exact Hrun |].
    rewrite E in Hrun. inversion Hrun; subst. discriminate. }
  split.
  { rewrite Hup. unfold saved. rewrite uploaded_uploads, Hfiles. reflexivity. }
  split.
  { rewrite Hstatus. unfold keyed. now rewrite length_map. }
  split.
  { intros u Hu. rewrite Hout. unfold saved.
    apply (uploaded_written p (keyed acc written) _ (u, acc u)).
    - now rewrite Hfiles.
    - unfold keyed. apply in_map_iff. now exists u. }
  split; [exact Hother |].
  split.
  { intros u Hu Hempty. apply Hother. intros Hin.
    apply in_map_iff in Hin. destruct Hin as (u' & Hfile & Hu').
    unfold written in Hu'. apply filter_In in Hu'. destruct Hu' as [Hu' Hne].
    apply output_file_inj in Hfile.
    assert (u' = u)
      by (apply (NoDup_map_inj sanitize_filename variable_names);
          auto using sanitized_names_nodup).
    subst u'. rewrite Hempty in Hne. discriminate. }
  intros u. apply accumulate_empty.
Qed.

Transparent variable_names.

Lemma merge_run_writes_nonempty_accumulators_witness :
  let run := update_file_list (Some 1) (Some "2024-01-01") (Some "2024-01-31")
                              (Some "B1") sample_state in
  exists p,
    Some "B1" = Some p
    /\ uploads run.1
       = (uploads sample_state
          ++ map (output_file p)
               (List.filter
                  (fun u => negb (df_empty
                     (accumulate (primary_bucket sample_state)
                        ["plc_log_20240115_a.csv"; "plc_log_20240116_a.csv"]
                        u empty_frame)))
                  variable_names))%list.
Proof.
  intros run.
  destruct (merge_run_writes_nonempty_accumulators
              (Some 1) (Some "2024-01-01") (Some "2024-01-31") (Some "B1")
              sample_state run.1
              ["plc_log_20240115_a.csv"; "plc_log_20240116_a.csv"]
              (Saved "B1" 2) ["B0"; "B1"])
    as (p & Hp & H).
  - vm_compute. reflexivity.
  - exists p. split; [exact Hp |]. exact (proj1 (proj2 (proj2 H))).
Defined.

(** ** Bad inputs *)

Section BadInputs.

Local Open Scope list_scope.

Lemma filter_files_by_date_app (l1 l2 : list string) (s e : datetime) :
  filter_files_by_date (l1 ++ l2) s e
  = filter_files_by_date l1 s e ++ filter_files_by_date l2 s e.
Proof.
  induction l1 as [|f l1 IH]; [reflexivity |].
  cbn [app filter_files_by_date]. rewrite IH.
  destruct (PyStr.split "_" (PyStr.chars f)) as [|p0 [|p1 [|tok rest]]];
    try reflexivity.
  destruct (strptime_Ymd tok); [| reflexivity].
  now destruct (dt_leb s a && dt_leb a e).
Qed.

Lemma filter_files_by_date_bad (bad : string) (s e : datetime) :
  (forall tok, PyStr.split "_" (PyStr.chars bad) !! 2%nat = Some tok ->
               exists err, strptime_Ymd tok = Raise err) ->
  filter_files_by_date [bad] s e = [].
Proof.
  intros H. cbn [filter_files_by_date].
  destruct (PyStr.split "_" (PyStr.chars bad)) as [|p0 [|p1 [|tok rest]]];
    try reflexivity.
  destruct (H tok eq_refl) as [err ->]. reflexivity.
Qed.

Lemma all_null (times : list cell) :
  Forall (fun c => to_datetime c = CNaN) times ->
  forallb isnull (map to_datetime times) = true.
Proof.
  induction 1 as [|c l Hc _ IH]; [reflexivity |].
  cbn [map forallb]. now rewrite Hc, IH.
Qed.

Lemma getitem_raises (df : DataFrame) (col : string) :
  has_column col df = false -> getitem df col = Raise (KeyError col).
Proof.
  unfold has_column, getitem.
  now destruct (index_of col (columns df)).
Qed.

(** A merged file without the two columns, or without a timestamp that can
    be read, adds nothing to [all_data]. *)
Lemma load_variable_skips (out : gmap string DataFrame) (var prefix var_name : string)
    (df : DataFrame) :
  split_selection var = Some (prefix, var_name) ->
  out !! (prefix ++ "_" ++ var_name ++ ".csv")%string = Some df ->
  has_column "TimeString" df = false
  \/ has_column "VarValue" df = false
  \/ (exists times, getitem df "TimeString" = Ok times
                    /\ Forall (fun c => to_datetime c = CNaN) times) ->
  load_variable out var = Ok [].
Proof.
  intros Hsplit Hdf Hbad. unfold load_variable. rewrite Hsplit, Hdf.
  destruct Hbad as [H|[H|(times & Ht & Hall)]].
  - now rewrite (getitem_raises _ _ H).
  - rewrite (getitem_raises _ _ H). now destruct (getitem df "TimeString").
  - rewrite Ht. destruct (getitem df "VarValue"); [| reflexivity].
    now rewrite (all_null _ Hall).
Qed.

Lemma load_variables_skip (out : gmap string DataFrame) (vars1 vars2 : list string)
    (var : string) (all_data : list series_row) :
  load_variable out var = Ok [] ->
  load_variables out (vars1 ++ var :: vars2) all_data
  = load_variables out (vars1 ++ vars2) all_data.
Proof.
  intros Hskip. revert all_data. induction vars1 as [|v vars1 IH]; intros all_data.
  - cbn [app load_variables]. rewrite Hskip. cbn [rbind]. now rewrite app_nil_r.
  - cbn [app load_variables]. destruct (load_variable out v); cbn [rbind];
      [apply IH | reflexivity].
Qed.

(** The merge reaches its end when every selected file can be read. *)
Lemma update_file_list_completes (n_clicks : option Z) (sd ed p : string)
    (s e : datetime) (st : state) :
  truthy_int n_clicks && truthy_str (Some sd) && truthy_str (Some ed)
  && truthy_str (Some p) = true ->
  fromisoformat sd = Ok s ->
  fromisoformat ed = Ok e ->
  let selected := filter_files_by_date (list_csv_files (primary_bucket st)) s e in
  selected <> [] ->
  Forall (fun f => readable (primary_bucket st) f = true) selected ->
  exists st' status options,
    update_file_list n_clicks (Some sd) (Some ed) (Some p) st
    = (st', Ok (SelectedFiles selected, status, options)).
Proof.
  intros Hguard Hs He selected Hne Hall.
  unfold update_file_list. rewrite Hguard, Hs, He. cbn [rbind].
  unfold bind at 1. unfold get at 1. fold selected.
  destruct selected as [|f fs] eqn:Hsel; [contradiction |].
  unfold bind at 1. unfold modify at 1. rewrite dict_from_variable_names.
  unfold bind at 1.
  change (mk_state (primary_bucket st) (output_bucket st) ?m
                   (filename_prefixes st) (uploads st))
    with (set_merged m st).
  rewrite (merge_files_ok variable_names variable_names_nodup) by exact Hall.
  unfold bind at 1. unfold get at 1. cbn [merged_dataframes set_merged].
  unfold bind at 1. rewrite save_all_spec.
  unfold bind, get, modify, ret.
  destruct (mem_str p _); eexists _, _, _; reflexivity.
Qed.

End BadInputs.

(** C2, as the specification states it: no single bad input would make
    [update_file_list] or [update_graph] raise.  One raw file without the
    [VarName] column, next to two good ones, makes the merge raise
    [KeyError] with nothing uploaded; one value that is no number, next to
    good ones, makes the render raise [ValueError]. *)
Lemma one_bad_input_aborts :
  let run := update_file_list (Some 1) (Some "2024-01-01") (Some "2024-03-31")
                              (Some "B1") sample_state in
  run.2 = Raise (KeyError "VarName")
  /\ uploads run.1 = []
  /\ update_graph
       {[ "B1_AI Values_20XTC001 - Analog input.csv" :=
            mk_df ["TimeString"; "VarValue"]
                  [[CStr "01-01-2024 00:00:00"; CStr "7,1"];
                   [CStr "01-01-2024 00:01:00"; CStr "abc"]];
          "B1_AI Values_20XTC002 - Analog input.csv" :=
            merged_file [("01-01-2024 00:00:00", 7)] ]}
       (Some ["B1_AI Values_20XTC001 - Analog input";
              "B1_AI Values_20XTC002 - Analog input"]) "absolute"
     = Raise (ValueError "could not convert string to float").
Proof. repeat split; vm_compute; reflexivity. Qed.

(** C2, amended.  A file name whose third part is missing or is no date is
    skipped by the date filter, and the names around it are filtered as
    without it.  In the render callback a merged file that lacks the
    [TimeString] or the [VarValue] column, or in which no timestamp can be
    read, adds nothing, and the variables around it are loaded as without
    it.  The batch merge reaches its end when every selected file has the
    [VarName] column. *)
Theorem bad_input_is_skipped_where_guarded :
  (forall files1 bad files2 s e,
      (forall tok, PyStr.split "_" (PyStr.chars bad) !! 2%nat = Some tok ->
                   exists err, strptime_Ymd tok = Raise err) ->
      filter_files_by_date (files1 ++ bad :: files2) s e
      = (filter_files_by_date files1 s e ++ filter_files_by_date files2 s e)%list)
  /\ (forall out vars1 var vars2 all_data prefix var_name df,
        split_selection var = Some (prefix, var_name) ->
        out !! (prefix ++ "_" ++ var_name ++ ".csv") = Some df ->
        has_column "TimeString" df = false
        \/ has_column "VarValue" df = false
        \/ (exists times, getitem df "TimeString" = Ok times
                          /\ Forall (fun c => to_datetime c = CNaN) times) ->
        load_variables out (vars1 ++ var :: vars2) all_data
        = load_variables out (vars1 ++ vars2) all_data)
  /\ (forall n_clicks sd ed p s e st,
        truthy_int n_clicks && truthy_str (Some sd) && truthy_str (Some ed)
        && truthy_str (Some p) = true ->
        fromisoformat sd = Ok s ->
        fromisoformat ed = Ok e ->
        let selected :=
          filter_files_by_date (list_csv_files (primary_bucket st)) s e in
        selected <> [] ->
        Forall (fun f => readable (primary_bucket st) f = true) selected ->
        exists st' status options,
          update_file_list n_clicks (Some sd) (Some ed) (Some p) st
          = (st', Ok (SelectedFiles selected, status, options))).
Proof.
  split; [| split].
  - intros files1 bad files2 s e Hbad.
    change (bad :: files2) with ([bad] ++ files2)%list.
    rewrite !filter_files_by_date_app, (filter_files_by_date_bad bad s e Hbad).
    reflexivity.
  - intros out vars1 var vars2 all_data prefix var_name df Hsplit Hdf Hbad.
    apply load_variables_skip. eapply load_variable_skips; eassumption.
  - intros. now apply update_file_list_completes.
Qed.

Lemma bad_input_is_skipped_where_guarded_witness :
  exists st' status options,
    update_file_list (Some 1) (Some "2024-01-01") (Some "2024-01-31") (Some "B1")
                     sample_state
    = (st',
       Ok (SelectedFiles
             (filter_files_by_date (list_csv_files (primary_bucket sample_state))
                (mk_datetime 2024 1 1 0 0 0 0) (mk_datetime 2024 1 31 0 0 0 0)),
           status, options)).
Proof.
  apply (proj2 (proj2 bad_input_is_skipped_where_guarded)
           (Some 1) "2024-01-01" "2024-01-31" "B1"
           (mk_datetime 2024 1 1 0 0 0 0) (mk_datetime 2024 1 31 0 0 0 0)
           sample_state).
  - reflexivity.
  - reflexivity.
  - reflexivity.
  - vm_compute. discriminate.
  - vm_compute. repeat constructor.
Defined.

(** * Further properties *)

(** ** Listings *)

Section Listing.

Local Open Scope list_scope.

Lemma lex_leb_trans (a b c : list Z) :
  lex_leb a b = true -> lex_leb b c = true -> lex_leb a c = true.
Proof.
  revert b c. induction a as [|x a IH]; intros [|y b] [|z c]; simpl;
    try reflexivity; try discriminate.
  intros H1 H2.
  apply orb_true_iff in H1. apply orb_true_iff in H2. apply orb_true_iff.
  destruct H1 as [H1|H1], H2 as [H2|H2].
  - left. apply Z.ltb_lt. apply Z.ltb_lt in H1, H2. lia.
  - apply andb_true_iff in H2. destruct H2 as [H2 _].
    left. apply Z.ltb_lt. apply Z.ltb_lt in H1. apply Z.eqb_eq in H2. lia.
  - apply andb_true_iff in H1. destruct H1 as [H1 _].
    left. apply Z.ltb_lt. apply Z.ltb_lt in H2. apply Z.eqb_eq in H1. lia.
  - apply andb_true_iff in H1. destruct H1 as [H1 H1'].
    apply andb_true_iff in H2. destruct H2 as [H2 H2'].
    right. apply andb_true_iff. split.
    + apply Z.eqb_eq. apply Z.eqb_eq in H1, H2. lia.
    + now apply (IH b c).
Qed.

Lemma filter_files_by_date_sublist (files : list string) (s e : datetime) :
  sublist (filter_files_by_date files s e) files.
Proof.
  induction files as [|f files IH]; cbn [filter_files_by_date]; [constructor |].
  destruct (PyStr.split "_" (PyStr.chars f)) as [|p0 [|p1 [|tok rest]]];
    try (now apply sublist_cons).
  destruct (strptime_Ymd tok); [| now apply sublist_cons].
  destruct (dt_leb s a && dt_leb a e); [now apply sublist_skip | now apply sublist_cons].
Qed.

Lemma insert_str_perm (x : string) (l : list string) :
  Permutation (x :: l) (insert_str x l).
Proof.
  induction l as [|y l IH]; simpl; [reflexivity |].
  destruct (String.leb x y); [reflexivity |].
  rewrite <- IH. apply perm_swap.
Qed.

Lemma sorted_strings_perm (l : list string) : Permutation l (sorted_strings l).
Proof.
  induction l as [|x l IH]; simpl; [reflexivity |].
  rewrite <- insert_str_perm. now constructor.
Qed.

Lemma insert_str_sorted (x : string) (l : list string) :
  Sorted (fun a b => String.leb a b = true) l ->
  Sorted (fun a b => String.leb a b = true) (insert_str x l).
Proof.
  induction l as [|y l IH]; simpl; intros Hs.
  - repeat constructor.
  - destruct (String.leb x y) eqn:E.
    + constructor; [assumption | now constructor].
    + assert (Hyx : String.leb y x = true)
        by (destruct (String.leb_total x y); congruence).
      inversion Hs as [|? ? Hs' Hhd]; subst.
      constructor; [now apply IH |].
      destruct l as [|z l]; simpl; [now constructor |].
      destruct (String.leb x z); constructor; [assumption |].
      now inversion Hhd.
Qed.

Lemma sorted_strings_sorted (l : list string) :
  Sorted (fun a b => String.leb a b = true) (sorted_strings l).
Proof.
  induction l as [|x l IH]; simpl; [constructor | now apply insert_str_sorted].
Qed.

Lemma dedup_In (x : string) (l : list string) : In x (dedup l) <-> In x l.
Proof.
  induction l as [|y l IH]; simpl; [reflexivity |].
  destruct (mem_str y l) eqn:E.
  - rewrite IH. split; [now right |].
    intros [->|H]; [now apply mem_str_In | assumption].
  - simpl. now rewrite IH.
Qed.

Lemma dedup_NoDup (l : list string) : NoDup (dedup l).
Proof.
  induction l as [|y l IH]; simpl; [constructor |].
  destruct (mem_str y l) eqn:E; [assumption |].
  apply NoDup_cons. split; [| assumption].
  intros H.
  assert (Hm : mem_str y l = true).
  { apply mem_str_In. apply (proj1 (dedup_In y l)). apply list_elem_of_In. exact H. }
  congruence.
Qed.

Lemma sorted_set_In (x : string) (l : list string) : In x (sorted_set l) <-> In x l.
Proof.
  unfold sorted_set. split; intros H.
  - apply dedup_In.
    exact (Permutation_in _ (Permutation_sym (sorted_strings_perm _)) H).
  - apply (Permutation_in _ (sorted_strings_perm _)). now apply dedup_In.
Qed.

Lemma sorted_set_NoDup (l : list string) : NoDup (sorted_set l).
Proof.
  unfold sorted_set.
  rewrite <- (sorted_strings_perm (dedup l)). apply dedup_NoDup.
Qed.




End Listing.

(** X1.  The date filter returns the selected names in the order of the
    listing, each at most as often as it is listed; and when the start of
    the range is after its end no file is selected. *)
Theorem filter_files_by_date_order_and_inverted_range
    (files : list string) (start_date end_date : datetime) :
  sublist (filter_files_by_date files start_date end_date) files
  /\ (dt_leb start_date end_date = false ->
      filter_files_by_date files start_date end_date = []).
Proof.
  split; [apply filter_files_by_date_sublist |].
  intros Hinv.
  destruct (filter_files_by_date files start_date end_date) as [|f fs] eqn:E;
    [reflexivity |].
  assert (Hin : In f (filter_files_by_date files start_date end_date))
    by (rewrite E; now left).
  apply filter_files_by_date_In in Hin.
  destruct Hin as (_ & tok & d & _ & _ & H1 & H2).
  unfold dt_leb in *. rewrite (lex_leb_trans _ _ _ H1 H2) in Hinv. discriminate.
Qed.


(** ** Runs of the merger *)

Opaque variable_names.

Section Runs.

Local Open Scope list_scope.

Lemma readable_dec (bucket : gmap string DataFrame) (files : list string) :
  Forall (fun f => readable bucket f = true) files
  \/ Exists (fun f => readable bucket f = false) files.
Proof.
  induction files as [|f files [IH|IH]].
  - left. constructor.
  - destruct (readable bucket f) eqn:E.
    + left. now constructor.
    + right. now constructor.
  - right. now constructor.
Qed.

(** A run either reaches its end, or stops with nothing changed but, at
    most, the accumulators. *)
Lemma update_file_list_stopped (n_clicks : option Z)
    (start_date end_date filename_prefix : option string) (st st' : state)
    (r : result (file_display * save_status * list string)) :
  update_file_list n_clicks start_date end_date filename_prefix st = (st', r) ->
  (exists selected status options, r = Ok (SelectedFiles selected, status, options))
  \/ (exists m, st' = set_merged m st) \/ st' = st.
Proof.
  unfold update_file_list.
  destruct start_date as [sd|], end_date as [ed|], filename_prefix as [p|];
    try (unfold bind, get, ret; intros H; inversion H; now (right; right)).
  destruct (truthy_int n_clicks && truthy_str (Some sd) && truthy_str (Some ed)
            && truthy_str (Some p));
    [| unfold bind, get, ret; intros H; inversion H; now (right; right)].
  destruct (fromisoformat sd) as [s|x]; cbn [rbind];
    [| unfold ret; intros H; inversion H; now (right; right)].
  destruct (fromisoformat ed) as [e|x]; cbn [rbind];
    [| unfold ret; intros H; inversion H; now (right; right)].
  unfold bind at 1. unfold get at 1.
  destruct (filter_files_by_date (list_csv_files (primary_bucket st)) s e)
    as [|f fs] eqn:Hsel; [unfold ret; intros H; inversion H; now (right; right) |].
  rewrite <- Hsel.
  unfold bind at 1. unfold modify at 1. rewrite dict_from_variable_names.
  change (mk_state (primary_bucket st) (output_bucket st) ?m
                   (filename_prefixes st) (uploads st))
    with (set_merged m st).
  unfold bind at 1.
  destruct (readable_dec (primary_bucket st)
              (filter_files_by_date (list_csv_files (primary_bucket st)) s e))
    as [Hall|Hex].
  - rewrite (merge_files_ok variable_names variable_names_nodup) by exact Hall.
    rewrite run_tail. intros H. left.
    apply (f_equal snd) in H. cbn [snd] in H. rewrite <- H. eauto.
  - destruct (merge_files_raises variable_names variable_names_nodup _
                (fun _ => empty_frame) st variable_names_not_nil Hex)
      as (m & x & Hloop).
    rewrite Hloop. intros H. apply (f_equal fst) in H. cbn [fst] in H.
    right. left. eauto.
Qed.

Lemma add_prefix_fields (b : bool) (p : string) (s : state) :
  let s' := if b then s else add_prefix p s in
  primary_bucket s' = primary_bucket s
  /\ output_bucket s' = output_bucket s
  /\ uploads s' = uploads s
  /\ merged_dataframes s' = merged_dataframes s
  /\ filename_prefixes s'
     = if b then filename_prefixes s else filename_prefixes s ++ [p].
Proof. destruct b; repeat split; reflexivity. Qed.

(** Where a run that reaches its end leaves the state and what it
    returns. *)
Lemma update_file_list_end (n_clicks : option Z)
    (start_date end_date filename_prefix : option string) (st st' : state)
    (selected : list string) (status : save_status) (options : list string) :
  update_file_list n_clicks start_date end_date filename_prefix st
  = (st', Ok (SelectedFiles selected, status, options)) ->
  exists p,
    filename_prefix = Some p
    /\ let acc u := accumulate (primary_bucket st) selected u empty_frame in
       let written :=
         List.filter (fun u => negb (df_empty (acc u))) variable_names in
       let saved := uploaded p (keyed acc written)
                             (set_merged (keyed acc variable_names) st) in
       st' = (if mem_str p (filename_prefixes st) then saved else add_prefix p saved)
       /\ options
          = sorted_set (filename_prefixes st'
                        ++ extract_prefixes_from_saved_files (output_bucket st')).
Proof.
  intros Hrun.
  destruct (update_file_list_run _ _ _ _ _ _ _ _ _ Hrun)
    as (p & sd & ed & s & e & -> & -> & -> & Hs & He & Hsel & Hall & Hst).
  cbv zeta in Hst. destruct Hst as [Hst' _]. rewrite filter_keyed in Hst'.
  exists p. split; [reflexivity |]. cbv zeta. split; [exact Hst' |].
  revert Hrun. unfold update_file_list.
  destruct (truthy_int n_clicks && truthy_str (Some sd) && truthy_str (Some ed)
            && truthy_str (Some p));
    [| unfold bind, get, ret; intros H; inversion H; fail].
  rewrite Hs, He. cbn [rbind]. unfold bind at 1. unfold get at 1.
  rewrite <- Hsel.
  destruct selected as [|f fs]; [unfold ret; intros H; inversion H; fail |].
  unfold bind at 1. unfold modify at 1. rewrite dict_from_variable_names.
  change (mk_state (primary_bucket st) (output_bucket st) ?m
                   (filename_prefixes st) (uploads st))
    with (set_merged m st).
  unfold bind at 1.
  rewrite (merge_files_ok variable_names variable_names_nodup) by exact Hall.
  rewrite run_tail. intros H.
  assert (H1 := f_equal fst H). cbn [fst] in H1.
  assert (H2 := f_equal snd H). cbn [snd] in H2.
  injection H2 as _ H4. rewrite <- H4, <- H1. reflexivity.
Qed.

(** What a finished run has stored: the accumulators in memory, the blobs
    it wrote, and every other blob as before. *)
Lemma run_storage (n_clicks : option Z)
    (start_date end_date filename_prefix : option string) (st st' : state)
    (selected : list string) (status : save_status) (options : list string) :
  update_file_list n_clicks start_date end_date filename_prefix st
  = (st', Ok (SelectedFiles selected, status, options)) ->
  exists p,
    filename_prefix = Some p
    /\ let acc u := accumulate (primary_bucket st) selected u empty_frame in
       let written :=
         List.filter (fun u => negb (df_empty (acc u))) variable_names in
       (forall u, In u written ->
          output_bucket st' !! output_file p u = Some (acc u))
       /\ (forall blob_name,
             ~ In blob_name (map (output_file p) written) ->
             output_bucket st' !! blob_name = output_bucket st !! blob_name)
       /\ primary_bucket st' = primary_bucket st
       /\ (forall q, In q (filename_prefixes st') <->
                     In q (filename_prefixes st) \/ q = p)
       /\ (NoDup (filename_prefixes st) -> NoDup (filename_prefixes st')).
Proof.
  intros Hrun.
  destruct (update_file_list_end _ _ _ _ _ _ _ _ _ Hrun) as (p & -> & Hst).
  cbv zeta in Hst. destruct Hst as [Hst' _].
  exists p. split; [reflexivity |]. intros acc written.
  clear Hrun. subst st'.
  match goal with |- context [if ?b then ?s else add_prefix ?q ?s] =>
    destruct (add_prefix_fields b q s) as (Hprim & Hout & _ & _ & Hreg0);
    set (saved := s) in *
  end.
  cbv zeta in Hprim, Hout, Hreg0.
  destruct (uploaded_rest p (keyed acc written)
              (set_merged (keyed acc variable_names) st)) as (Hp & _ & Hpre).
  cbn [primary_bucket filename_prefixes set_merged] in Hp, Hpre.
  change (uploaded p (keyed acc written) (set_merged (keyed acc variable_names) st))
    with saved in Hp, Hpre.
  assert (Hfiles : map (fun e0 : string * DataFrame => output_file p e0.1)
                       (keyed acc written) = map (output_file p) written)
    by apply map_file_keyed.
  assert (Hnd : NoDup (map (output_file p) written))
    by (apply NoDup_map_filter, output_files_nodup).
  split.
  { intros u Hu. rewrite Hout. unfold saved.
    apply (uploaded_written p (keyed acc written) _ (u, acc u)).
    - pose proof Hnd as Hnd'. rewrite <- Hfiles in Hnd'. exact Hnd'.
    - unfold keyed. apply in_map_iff. now exists u. }
  split.
  { intros blob_name Hn. rewrite Hout. unfold saved.
    rewrite (uploaded_other p (keyed acc written)); [reflexivity |].
    intros Hin. apply Hn. rewrite <- Hfiles. exact Hin. }
  split; [now rewrite Hprim, Hp |].
  rewrite Hreg0, Hpre. destruct (mem_str p (filename_prefixes st)) eqn:Hm.
  - split; [| trivial].
    intros q. split; [now left |].
    intros [H| ->]; [assumption | now apply mem_str_In].
  - split.
    + intros q. rewrite in_app_iff. cbn [In]. intuition.
    + intros Hn. apply NoDup_app. split; [assumption |].
      split; [| apply NoDup_singleton].
      intros x Hx Hx'. apply list_elem_of_In in Hx, Hx'.
      destruct Hx' as [<-|[]]. apply mem_str_In in Hx. congruence.
Qed.

End Runs.

(** X3.  Unless a run of [update_file_list] reaches its end and returns the
    list of selected files, it writes nothing: the two buckets, the upload
    log and the registry of prefixes are as before.  So a run that raises
    on an unreadable file leaves no file of the batch behind. *)
Theorem update_file_list_writes_only_at_its_end
    (n_clicks : option Z) (start_date end_date filename_prefix : option string)
    (st st' : state) (r : result (file_display * save_status * list string)) :
  update_file_list n_clicks start_date end_date filename_prefix st = (st', r) ->
  (forall selected status options,
      r <> Ok (SelectedFiles selected, status, options)) ->
  primary_bucket st' = primary_bucket st
  /\ output_bucket st' = output_bucket st
  /\ uploads st' = uploads st
  /\ filename_prefixes st' = filename_prefixes st.
Proof.
  intros Hrun Hnot.
  destruct (update_file_list_stopped _ _ _ _ _ _ _ Hrun)
    as [(sel & status & options & ->)|[[m ->]| ->]].
  - now destruct (Hnot sel status options).
  - now repeat split.
  - now repeat split.
Qed.

Transparent variable_names.

Lemma update_file_list_writes_only_at_its_end_witness :
  let run := update_file_list (Some 1) (Some "2024-01-01") (Some "2024-03-31")
                              (Some "B1") sample_state in
  primary_bucket run.1 = primary_bucket sample_state
  /\ output_bucket run.1 = output_bucket sample_state
  /\ uploads run.1 = uploads sample_state
  /\ filename_prefixes run.1 = filename_prefixes sample_state.
Proof.
  intros run.
  apply (update_file_list_writes_only_at_its_end
           (Some 1) (Some "2024-01-01") (Some "2024-03-31") (Some "B1")
           sample_state run.1 (Raise (KeyError "VarName"))).
  - vm_compute. reflexivity.
  - intros selected status options. discriminate.
Defined.

Opaque variable_names.

(** X4.  A run that reaches its end registers its prefix: the prefix is in
    [filename_prefixes] afterwards, the prefixes registered before are still
    there and nothing else is added, so a registry without repetition stays
    without repetition.  The options returned for the prefix dropdown are
    the registry together with the prefixes found in the output bucket, in
    increasing order and without repetition, and the prefix of the run is
    among them. *)
Theorem update_file_list_registers_prefix
    (n_clicks : option Z) (start_date end_date filename_prefix : option string)
    (st st' : state) (selected : list string) (status : save_status)
    (options : list string) :
  update_file_list n_clicks start_date end_date filename_prefix st
  = (st', Ok (SelectedFiles selected, status, options)) ->
  exists p,
    filename_prefix = Some p
    /\ (forall q, In q (filename_prefixes st') <->
                  In q (filename_prefixes st) \/ q = p)
    /\ (NoDup (filename_prefixes st) -> NoDup (filename_prefixes st'))
    /\ (forall q, In q options <->
                  In q (filename_prefixes st')
                  \/ In q (extract_prefixes_from_saved_files (output_bucket st')))
    /\ In p options
    /\ Sorted (fun a b => String.leb a b = true) options
    /\ NoDup options.
Proof.
  intros Hrun.
  destruct (run_storage _ _ _ _ _ _ _ _ _ Hrun) as (p & Hp & Hsto).
  destruct (update_file_list_end _ _ _ _ _ _ _ _ _ Hrun) as (p' & Hp' & Hend).
  cbv zeta in Hsto, Hend. rewrite Hp in Hp'. inversion Hp'; subst p'.
  destruct Hsto as (_ & _ & _ & Hreg & Hnd). destruct Hend as [_ Hopt].
  exists p. split; [assumption |]. split; [assumption |]. split; [assumption |].
  assert (Hin : forall q, In q options <->
                  In q (filename_prefixes st')
                  \/ In q (extract_prefixes_from_saved_files (output_bucket st'))).
  { intros q. rewrite Hopt, sorted_set_In. apply in_app_iff. }
  split; [exact Hin |].
  split; [apply Hin; left; apply Hreg; now right |].
  rewrite Hopt. split; [apply sorted_strings_sorted | apply sorted_set_NoDup].
Qed.

Transparent variable_names.

Lemma update_file_list_registers_prefix_witness :
  let run := update_file_list (Some 1) (Some "2024-01-01") (Some "2024-01-31")
                              (Some "B1") sample_state in
  exists p,
    Some "B1" = Some p
    /\ (forall q, In q (filename_prefixes run.1) <->
                  In q (filename_prefixes sample_state) \/ q = p)
    /\ In p ["B0"; "B1"].
Proof.
  intros run.
  destruct (update_file_list_registers_prefix
              (Some 1) (Some "2024-01-01") (Some "2024-01-31") (Some "B1")
              sample_state run.1
              ["plc_log_20240115_a.csv"; "plc_log_20240116_a.csv"]
              (Saved "B1" 2) ["B0"; "B1"])
    as (p & Hp & Hreg & _ & _ & Hin & _).
  - vm_compute. reflexivity.
  - exists p. split; [exact Hp |]. split; [exact Hreg | exact Hin].
Defined.

(** ** The series loader at its edges *)

Section Edges.

Local Open Scope list_scope.

Lemma sub_min_raises (t0 : Z) (col : list cell) :
  Exists (fun c => exists t, c = CTime t /\ 2 ^ 63 - 1 < (t - t0) * 1000000000) col ->
  sub_min t0 col = Raise (OverflowError "Overflow in int64 addition").
Proof.
  induction 1 as [c col (t & -> & Ht)|c col _ IH]; simpl.
  - destruct ((t - t0) * 1000000000 <=? 2 ^ 63 - 1) eqn:E; [| reflexivity].
    apply Z.leb_le in E. lia.
  - rewrite IH. destruct (time_of c) as [t|]; simpl; [| reflexivity].
    now destruct ((t - t0) * 1000000000 <=? 2 ^ 63 - 1).
Qed.

Lemma sub_min_returns (t0 : Z) (col : list cell) :
  Forall (fun c => forall t, c = CTime t -> (t - t0) * 1000000000 <= 2 ^ 63 - 1) col ->
  exists ds, sub_min t0 col = Ok ds.
Proof.
  induction 1 as [|c col Hc _ [ds IH]]; simpl; [eauto |].
  rewrite IH. destruct c as [x|s|t|]; simpl; eauto.
  specialize (Hc t eq_refl). apply Z.leb_le in Hc. rewrite Hc. simpl. eauto.
Qed.

Lemma filter_sublist {A} (p : A -> bool) (l : list A) : sublist (List.filter p l) l.
Proof.
  induction l as [|x l IH]; simpl; [constructor |].
  destruct (p x); now constructor.
Qed.

Lemma ffill_gapless (prev : option F64.float) (l : list (option F64.float))
    (j k : nat) (x : F64.float) :
  (j <= k)%nat -> (k < length l)%nat ->
  ffill prev l !! j = Some (Some x) ->
  exists y, ffill prev l !! k = Some (Some y).
Proof.
  intros Hjk Hk Hj. induction Hjk as [|k Hjk IH]; [eauto |].
  destruct IH as [y Hy]; [lia |].
  rewrite ffill_lookup.
  destruct (lookup_lt_is_Some_2 l (S k) Hk) as [[z|] ->]; [eauto |].
  rewrite Hy. eauto.
Qed.

End Edges.

(** X5.  The difference of a timestamp and the earliest one is held in 64 bits
    of nanoseconds: when one timestamp of the column is more than
    2^63 - 1 nanoseconds after the earliest, [elapsed_minutes] raises
    [OverflowError], and so does the render callback, which computes the
    column outside any [try]; otherwise the column of elapsed minutes has
    a value for every timestamp and none elsewhere. *)
Theorem elapsed_minutes_overflows_beyond_int64 (col : list cell) (t0 : Z) :
  min_time col = Some t0 ->
  (Exists (fun c => exists t, c = CTime t /\ 2 ^ 63 - 1 < (t - t0) * 1000000000) col ->
   elapsed_minutes col = Raise (OverflowError "Overflow in int64 addition"))
  /\ (Forall (fun c => forall t, c = CTime t -> (t - t0) * 1000000000 <= 2 ^ 63 - 1) col ->
      elapsed_minutes col = Ok (map (minutes_since t0) col))
  /\ update_graph
       {[ "B1_AI Values_20XTC001 - Analog input.csv" :=
            merged_file [("01-01-1700 00:00:00", 1); ("01-01-2200 00:00:00", 2)] ]}
       (Some ["B1_AI Values_20XTC001 - Analog input"]) "absolute"
     = Raise (OverflowError "Overflow in int64 addition").
Proof.
  intros Hmin. split; [| split; [| vm_compute; reflexivity]].
  - intros H. unfold elapsed_minutes. rewrite Hmin.
    now rewrite (sub_min_raises t0 col H).
  - intros H. destruct (sub_min_returns t0 col H) as [ds Hds].
    assert (E : exists el, elapsed_minutes col = Ok el).
    { unfold elapsed_minutes. rewrite Hmin, Hds. simpl. eauto. }
    destruct E as [el E]. rewrite E. f_equal.
    now apply elapsed_minutes_ok.
Qed.

Lemma elapsed_minutes_overflows_beyond_int64_witness :
  elapsed_minutes [CTime (-8520336000); CNaN; CTime 7258118400]
  = Raise (OverflowError "Overflow in int64 addition").
Proof.
  apply (proj1 (elapsed_minutes_overflows_beyond_int64
                  [CTime (-8520336000); CNaN; CTime 7258118400] (-8520336000)
                  eq_refl)).
  apply Exists_cons_tl, Exists_cons_tl, Exists_cons_hd.
  exists 7258118400. split; [reflexivity | vm_compute; reflexivity].
Defined.

(** X6.  The outlier filter only removes rows: the columns stay, the rows that
    are left are rows of the table in their order, and for a column off
    the skip list every row that is left has a number in that column, so
    that a row with a missing value is always removed. *)
Theorem remove_outliers_only_removes_rows (df df' : DataFrame) (column : string) :
  remove_outliers df column = Ok df' ->
  columns df' = columns df
  /\ sublist (rows df') (rows df)
  /\ (mem_str column skip_variables = false ->
      exists i, index_of column (columns df) = Some i
                /\ forall row, In row (rows df') ->
                     exists v, get_cell i row = CNum v /\ F64.is_nan v = false).
Proof.
  unfold remove_outliers.
  destruct (mem_str column skip_variables).
  - intros H. inversion H. subst. repeat split; [reflexivity | discriminate].
  - unfold getitem.
    destruct (index_of column (columns df)) as [i|]; [| discriminate].
    cbn [rbind]. destruct (float_values _) as [values|]; cbn [rbind]; [| discriminate].
    intros H. inversion H. cbn [columns rows select].
    split; [reflexivity |]. split; [apply filter_sublist |].
    intros _. exists i. split; [reflexivity |].
    intros row Hrow. apply filter_In in Hrow. destruct Hrow as [_ Hw].
    unfold within in Hw. destruct (get_cell i row) as [v| | |]; try discriminate.
    exists v. split; [reflexivity |].
    simpl in Hw. unfold F64.to_option in Hw.
    now destruct (F64.is_nan v).
Qed.

Lemma remove_outliers_only_removes_rows_witness :
  sublist [[CNum (F64.of_Z 1)]; [CNum (F64.of_Z 2)]; [CNum (F64.of_Z 3)]]
          (rows (mk_df ["VarValue"]
                   [[CNum (F64.of_Z 1)]; [CNaN]; [CNum (F64.of_Z 2)];
                    [CNum (F64.of_Z 3)]])).
Proof.
  exact (proj1 (proj2 (remove_outliers_only_removes_rows
    (mk_df ["VarValue"]
       [[CNum (F64.of_Z 1)]; [CNaN]; [CNum (F64.of_Z 2)]; [CNum (F64.of_Z 3)]])
    (mk_df ["VarValue"]
       [[CNum (F64.of_Z 1)]; [CNum (F64.of_Z 2)]; [CNum (F64.of_Z 3)]])
    "VarValue" eq_refl))).
Defined.

(** X7.  The resampled table has a row for every minute and, once a bucket has
    a value, no gap: a later row is as many minutes later as it is rows
    further, and it has a value when an earlier row has one. *)
Theorem resample_ffill_leaves_no_gap (readings : list reading) (j k : nat)
    (tj t : Z) (x : F64.float) (ej v e : option F64.float) :
  (j <= k)%nat ->
  resample_ffill readings !! j = Some (tj, Some x, ej) ->
  resample_ffill readings !! k = Some (t, v, e) ->
  t = tj + 60 * (Z.of_nat k - Z.of_nat j) /\ exists y, v = Some y.
Proof.
  intros Hjk Hj Hk.
  destruct readings as [|r0 rs]; [discriminate |].
  pose proof (resample_ffill_lookup r0 rs) as L. cbv zeta in L.
  rewrite L in Hj, Hk. clear L.
  set (first := fold_right Z.min _ _) in *.
  set (last := fold_right Z.max _ _) in *.
  clearbody first last.
  destruct (decide (Z.of_nat j < _)) as [Hjlt|]; [| discriminate].
  destruct (decide (Z.of_nat k < _)) as [Hklt|]; [| discriminate].
  inversion Hj as [[Htj Hx Hej]]. inversion Hk as [[Ht Hv He]].
  split.
  { lia. }
  match type of Hx with default None (ffill None ?vs !! j) = _ =>
    set (values := vs) in * end.
  destruct (ffill None values !! j) as [[x'|]|] eqn:Hl; try discriminate.
  destruct (ffill_gapless None values j k x' Hjk) as [y Hy].
  - unfold values. rewrite length_map, length_seqZ. lia.
  - exact Hl.
  - exists y. now rewrite Hy.
Qed.

Lemma resample_ffill_leaves_no_gap_witness :
  180 = 0 + 60 * (Z.of_nat 3 - Z.of_nat 0)
  /\ exists y, Some (F64.of_Z 20) = Some y.
Proof.
  apply (resample_ffill_leaves_no_gap
           [(0, Some (F64.of_Z 10), Some (F64.of_Z 0));
            (180, Some (F64.of_Z 20), Some (F64.of_Z 3))]
           0%nat 3%nat 0 180 (F64.of_Z 10) (Some (F64.of_Z 0))
           (Some (F64.of_Z 20)) (Some (F64.of_Z 3))).
  - lia.
  - reflexivity.
  - reflexivity.
Defined.


(** [float] reads the special values in any case and rounds a decimal
    literal to the nearest float, to infinity when it is too large. *)
Lemma parse_examples :
  PyFloat.parse "inf" = Ok (S754_infinity false)
  /\ PyFloat.parse " -Infinity " = Ok (S754_infinity true)
  /\ PyFloat.parse "NaN" = Ok F64.nan
  /\ PyFloat.parse "1e400" = Ok (S754_infinity false)
  /\ PyFloat.parse "-0.0" = Ok (S754_zero true)
  /\ PyFloat.parse "0.1" = Ok (S754_finite false 7205759403792794 (-56))
  /\ PyFloat.parse "9007199254740993" = Ok (F64.of_Z 9007199254740992)
  /\ PyFloat.parse "infinit" = Raise (ValueError "could not convert string to float")
  /\ PyFloat.parse "abc" = Raise (ValueError "could not convert string to float").
Proof. repeat split; vm_compute; reflexivity. Qed.
